(** * Starlink PNT relay: a shallow embedding of the three bridge scripts

    The repository holds three stand-alone Python scripts that share most
    of their helpers:

    - [starlink_nmea_fallback.py]: pass-through of a serial GPS stream with
      fail-over to sentences synthesized from the Starlink fix (module
      [Fallback]);
    - [starlink_to_udp.py]: NMEA sentences over UDP (module [Udp]);
    - [starlink_mavlink_gps.py]: GPS_INPUT injection over MAVLink (module
      [Mavlink]).

    Conventions of the embedding.  Python [int] is [Z].  Python [float] is
    [Q]: arithmetic is exact, so binary rounding error, NaN and the
    infinities are outside the model.  [str] is [string].  Module-level
    globals become fields of an explicit state record, and every reading of
    the wall clock or of the Starlink API is an input of the function that
    performs it. *)

From Stdlib Require Import ZArith QArith Qround Qabs Lia Lqa.
From Stdlib Require Import List String Ascii Bool DecimalString.
Import ListNotations.

Local Open Scope Z_scope.

(** ** Python primitives used by the scripts *)

Module Py.

(** [ord(c)] *)
Definition ord (c : ascii) : Z := Z.of_N (N_of_ascii c).

(** [int(x)] on a float: truncation toward zero. *)
Definition int (x : Q) : Z := Z.quot (Qnum x) (Zpos (Qden x)).

(** [x % m] on floats: the result takes the sign of the divisor. *)
Definition fmod (x m : Q) : Q := (x - m * inject_Z (Qfloor (x / m)))%Q.

(** [round(x)]: to the nearest integer, ties to the even one.  The same
    rule is the one the [f] presentation type applies to the digit that
    is kept last. *)
Definition round (x : Q) : Z :=
  let f := Qfloor x in
  match Qcompare (x - inject_Z f) (1 # 2) with
  | Lt => f
  | Gt => f + 1
  | Eq => if Z.even f then f else f + 1
  end.

(** [abs(x)] *)
Definition abs (x : Q) : Q := Qabs x.

(** Comparison of floats, as booleans. *)
Definition ltb (x y : Q) : bool := negb (Qle_bool y x).
Definition gtb (x y : Q) : bool := ltb y x.
Definition geb (x y : Q) : bool := Qle_bool y x.
Definition eqb (x y : Q) : bool := Qeq_bool x y.

(** *** Strings *)

Fixpoint repeat_char (c : ascii) (n : nat) : string :=
  match n with
  | O => EmptyString
  | S k => String c (repeat_char c k)
  end.

(** [s[n:]] *)
Fixpoint drop (n : nat) (s : string) : string :=
  match n, s with
  | O, _ => s
  | S _, EmptyString => EmptyString
  | S k, String _ r => drop k r
  end.

(** [s[:-n]] for [n > 0] *)
Definition drop_last (n : nat) (s : string) : string :=
  substring 0 (String.length s - n) s.

(** [s.startswith(p)] *)
Fixpoint startswith (s p : string) {struct p} : bool :=
  match p, s with
  | EmptyString, _ => true
  | String a p', String b s' => Ascii.eqb a b && startswith s' p'
  | String _ _, EmptyString => false
  end.

(** [str.isspace] on the ASCII range. *)
Definition isspace (c : ascii) : bool :=
  let n := N_of_ascii c in
  ((9 <=? n) && (n <=? 13) || (28 <=? n) && (n <=? 32))%N.

Fixpoint lstrip (s : string) : string :=
  match s with
  | EmptyString => EmptyString
  | String c r => if isspace c then lstrip r else s
  end.

Fixpoint rstrip (s : string) : string :=
  match s with
  | EmptyString => EmptyString
  | String c r =>
      match rstrip r with
      | EmptyString => if isspace c then EmptyString else String c EmptyString
      | r' => String c r'
      end
  end.

(** [s.strip()] *)
Definition strip (s : string) : string := rstrip (lstrip s).

(** [b.decode('ascii', errors='ignore')]: bytes outside the ASCII range
    are left out. *)
Fixpoint decode_ascii_ignore (b : list Byte.byte) : string :=
  match b with
  | [] => EmptyString
  | x :: r =>
      let c := ascii_of_byte x in
      if (N_of_ascii c <? 128)%N
      then String c (decode_ascii_ignore r)
      else decode_ascii_ignore r
  end.

(** *** Number formatting *)

(** Decimal digits of a non-negative integer, without sign. *)
Definition digits (z : Z) : string :=
  NilEmpty.string_of_uint (N.to_uint (Z.to_N z)).

(** Sign-aware zero padding, as the [0] flag of the format
    mini-language does it: the zeros go between the sign and the digits. *)
Definition zero_pad (width : nat) (negative : bool) (body : string) : string :=
  let sign := if negative then "-"%string else EmptyString in
  let used := (String.length sign + String.length body)%nat in
  (sign ++ repeat_char "0" (width - used) ++ body)%string.

(** [f"{z:0{width}d}"]; [width = 0] is [str(z)]. *)
Definition format_d (width : nat) (z : Z) : string :=
  zero_pad width (z <? 0) (digits (Z.abs z)).

Definition str (z : Z) : string := format_d 0 z.

(** [f"{x:0{width}.{prec}f}"]: fixed point with [prec] decimals. *)
Definition format_f (width prec : nat) (x : Q) : string :=
  let scale := 10 ^ Z.of_nat prec in
  let n := round (Qabs x * inject_Z scale) in
  let ip := digits (n / scale) in
  let fp := digits (n mod scale) in
  let frac := (repeat_char "0" (prec - String.length fp) ++ fp)%string in
  zero_pad width (ltb x 0) (ip ++ "." ++ frac)%string.

(** Uppercase hexadecimal digits of a non-negative integer. *)
Fixpoint upper_hex (u : Hexadecimal.uint) : string :=
  match u with
  | Hexadecimal.Nil => EmptyString
  | Hexadecimal.D0 r => String "0" (upper_hex r)
  | Hexadecimal.D1 r => String "1" (upper_hex r)
  | Hexadecimal.D2 r => String "2" (upper_hex r)
  | Hexadecimal.D3 r => String "3" (upper_hex r)
  | Hexadecimal.D4 r => String "4" (upper_hex r)
  | Hexadecimal.D5 r => String "5" (upper_hex r)
  | Hexadecimal.D6 r => String "6" (upper_hex r)
  | Hexadecimal.D7 r => String "7" (upper_hex r)
  | Hexadecimal.D8 r => String "8" (upper_hex r)
  | Hexadecimal.D9 r => String "9" (upper_hex r)
  | Hexadecimal.Da r => String "A" (upper_hex r)
  | Hexadecimal.Db r => String "B" (upper_hex r)
  | Hexadecimal.Dc r => String "C" (upper_hex r)
  | Hexadecimal.Dd r => String "D" (upper_hex r)
  | Hexadecimal.De r => String "E" (upper_hex r)
  | Hexadecimal.Df r => String "F" (upper_hex r)
  end.

(** [f"{z:0{width}X}"] *)
Definition format_X (width : nat) (z : Z) : string :=
  zero_pad width (z <? 0) (upper_hex (N.to_hex_uint (Z.to_N (Z.abs z)))).

End Py.

(** ** [datetime] as the scripts use it *)

Module Datetime.

Record datetime := {
  year : Z; month : Z; day : Z;
  hour : Z; minute : Z; second : Z; microsecond : Z
}.

(** Proleptic Gregorian date of a day count relative to 1970-01-01. *)
Definition civil_from_days (days : Z) : Z * Z * Z :=
  let z := days + 719468 in
  let era := z / 146097 in
  let doe := z mod 146097 in
  let yoe := (doe - doe / 1460 + doe / 36524 - doe / 146096) / 365 in
  let doy := doe - (365 * yoe + yoe / 4 - yoe / 100) in
  let mp := (5 * doy + 2) / 153 in
  let d := doy - (153 * mp + 2) / 5 + 1 in
  let m := if mp <? 10 then mp + 3 else mp - 9 in
  let y := yoe + era * 400 + (if m <=? 2 then 1 else 0) in
  (y, m, d).

(** Microseconds since the Unix epoch of a POSIX timestamp, rounded as
    [datetime.fromtimestamp] rounds. *)
Definition timestamp_us (t : Q) : Z := Py.round (t * inject_Z 1000000).

(** [datetime.utcfromtimestamp(t)], also [datetime.fromtimestamp(t, tz=utc)]. *)
Definition utcfromtimestamp (t : Q) : datetime :=
  let us := timestamp_us t in
  let secs := us / 1000000 in
  let '(y, m, d) := civil_from_days (secs / 86400) in
  let sod := secs mod 86400 in
  {| year := y; month := m; day := d;
     hour := sod / 3600; minute := (sod mod 3600) / 60; second := sod mod 60;
     microsecond := us mod 1000000 |}.

(** [now.strftime("%H%M%S.%f")] *)
Definition strftime_HMSf (now : datetime) : string :=
  (Py.format_d 2 (hour now) ++ Py.format_d 2 (minute now)
   ++ Py.format_d 2 (second now) ++ "." ++ Py.format_d 6 (microsecond now))%string.

(** [now.strftime("%d%m%y")] *)
Definition strftime_dmy (now : datetime) : string :=
  (Py.format_d 2 (day now) ++ Py.format_d 2 (month now)
   ++ Py.format_d 2 (year now mod 100))%string.

End Datetime.

(** ** What the three scripts share *)

(** The dictionary returned by [get_starlink_pnt]: every key is always
    present, and holds [None] when the query failed or the document lacks
    the field. *)
Record Pnt := {
  lat : option Q;
  lon : option Q;
  alt : option Q;
  accuracy : option Q;
  gps_sats : option Z;
  gps_valid : option bool
}.

(** The three NTP globals. *)
Record Ntp := {
  ntp_offset : Q;
  ntp_last_sync : Q;
  ntp_available : bool
}.

(** [x if x is not None else d] *)
Definition or_default {A : Type} (x : option A) (d : A) : A :=
  match x with
  | Some v => v
  | None => d
  end.

Module Nmea.

(** [nmea_lat(val)] *)
Definition nmea_lat (val : Q) : string :=
  let deg := Py.int (Py.abs val) in
  let minf := ((Py.abs val - inject_Z deg) * 60)%Q in
  let hemi := if Py.geb val 0 then "N"%string else "S"%string in
  (Py.format_d 2 deg ++ Py.format_f 7 4 minf ++ "," ++ hemi)%string.

(** [nmea_lon(val)] *)
Definition nmea_lon (val : Q) : string :=
  let deg := Py.int (Py.abs val) in
  let minf := ((Py.abs val - inject_Z deg) * 60)%Q in
  let hemi := if Py.geb val 0 then "E"%string else "W"%string in
  (Py.format_d 3 deg ++ Py.format_f 7 4 minf ++ "," ++ hemi)%string.

(** The loop [checksum = 0; for c in s: checksum ^= ord(c)]. *)
Fixpoint xor_fold (checksum : Z) (s : string) : Z :=
  match s with
  | EmptyString => checksum
  | String c r => xor_fold (Z.lxor checksum (Py.ord c)) r
  end.

(** [calculate_checksum(sentence)] *)
Definition calculate_checksum (sentence : string) : string :=
  Py.format_X 2 (xor_fold 0 (Py.drop 1 sentence)).

(** [f"{body}*{checksum}"] *)
Definition with_checksum (body : string) : string :=
  (body ++ "*" ++ calculate_checksum body)%string.

(** [now.strftime("%H%M%S.%f")[:-4]] *)
Definition time_str (now : Datetime.datetime) : string :=
  Py.drop_last 4 (Datetime.strftime_HMSf now).

(** ['A' if gps_valid else 'V'] *)
Definition status (gps_valid : bool) : string :=
  if gps_valid then "A"%string else "V"%string.

(** The six sentence bodies, as the f-strings build them. *)
Definition gga (time_str lat_str lon_str : string) (fix_quality gps_sats : Z)
    (accuracy alt : Q) : string :=
  ("$GPGGA," ++ time_str ++ "," ++ lat_str ++ "," ++ lon_str ++ ","
   ++ Py.str fix_quality ++ "," ++ Py.str gps_sats ++ ","
   ++ Py.format_f 0 1 accuracy ++ "," ++ Py.format_f 0 1 alt
   ++ ",M,0.0,M,,")%string.

Definition rmc (time_str : string) (gps_valid : bool)
    (lat_str lon_str date_str : string) : string :=
  ("$GPRMC," ++ time_str ++ "," ++ status gps_valid ++ "," ++ lat_str ++ ","
   ++ lon_str ++ ",0.0,0.0," ++ date_str ++ ",,")%string.

Definition vtg : string := "$GPVTG,0.0,T,,M,0.0,N,0.0,K,"%string.

Definition gll (lat_str lon_str time_str : string) (gps_valid : bool) : string :=
  ("$GPGLL," ++ lat_str ++ "," ++ lon_str ++ "," ++ time_str ++ ","
   ++ status gps_valid ++ ",")%string.

Definition gsa (accuracy : Q) : string :=
  ("$GPGSA,A,3,01,02,03,04,05,06,07,08,09,10,11,12,"
   ++ Py.format_f 0 1 accuracy ++ "," ++ Py.format_f 0 1 accuracy ++ ","
   ++ Py.format_f 0 1 accuracy)%string.

Definition zda (time_str : string) (now : Datetime.datetime) : string :=
  ("$GPZDA," ++ time_str ++ "," ++ Py.format_d 2 (Datetime.day now) ++ ","
   ++ Py.format_d 2 (Datetime.month now) ++ "," ++ Py.str (Datetime.year now)
   ++ ",,,")%string.

End Nmea.

(** What a script does to the outside, in program order. *)
Inductive event :=
| Print (s : string)
| PipeWrite (s : string)
| Sleep (seconds : Q).

Definition CRLF : string := String "013" (String "010" EmptyString).

(** ** [starlink_nmea_fallback.py] *)

Module Fallback.

Definition LOCK_LOSS_THRESHOLD : Q := 120.
Definition UPDATE_INTERVAL : Q := 2 # 10.

(** The globals [last_gps_data_time] and [fallback_active]. *)
Record State := {
  last_gps_data_time : Q;
  fallback_active : bool
}.

(** Their values when the module is loaded. *)
Definition initial : State :=
  {| last_gps_data_time := 0; fallback_active := false |}.

(** [get_ntp_timestamp()], with the reading of [time.time()] as input. *)
Definition get_ntp_timestamp (ntp : Ntp) (time_time : Q) : Q :=
  if ntp_available ntp then (time_time + ntp_offset ntp)%Q else time_time.

(** The block repeated before each sentence:
    [utcfromtimestamp(get_ntp_timestamp())] when NTP is available,
    [utcnow()] otherwise. *)
Definition sample_now (ntp : Ntp) (time_time : Q) : Datetime.datetime :=
  if ntp_available ntp
  then Datetime.utcfromtimestamp (get_ntp_timestamp ntp time_time)
  else Datetime.utcfromtimestamp time_time.

(** [get_starlink_sentences()].  [pnt] is what [get_starlink_pnt()]
    returned and [clock k] is the wall clock at the [k]-th sampling of the
    call, one per sentence. *)
Definition get_starlink_sentences (ntp : Ntp) (pnt : Pnt) (clock : nat -> Q)
    : list string :=
  let lat := or_default (lat pnt) 47%Q in
  let lon := or_default (lon pnt) (-122)%Q in
  let alt := or_default (alt pnt) 10%Q in
  let gps_sats := or_default (gps_sats pnt) 8 in
  let gps_valid := or_default (gps_valid pnt) true in
  let accuracy := or_default (accuracy pnt) 1%Q in
  let nmea_lat_str := Nmea.nmea_lat lat in
  let nmea_lon_str := Nmea.nmea_lon lon in
  let fix_quality := if gps_valid then 1 else 0 in
  let now_gga := sample_now ntp (clock 0%nat) in
  let gga := Nmea.gga (Nmea.time_str now_gga) nmea_lat_str nmea_lon_str
               fix_quality gps_sats accuracy alt in
  let now_rmc := sample_now ntp (clock 1%nat) in
  let rmc := Nmea.rmc (Nmea.time_str now_rmc) gps_valid nmea_lat_str
               nmea_lon_str (Datetime.strftime_dmy now_rmc) in
  let vtg := Nmea.vtg in
  let now_gll := sample_now ntp (clock 3%nat) in
  let gll := Nmea.gll nmea_lat_str nmea_lon_str (Nmea.time_str now_gll)
               gps_valid in
  let gsa := Nmea.gsa accuracy in
  let now_zda := sample_now ntp (clock 5%nat) in
  let zda := Nmea.zda (Nmea.time_str now_zda) now_zda in
  [ Nmea.with_checksum gga; Nmea.with_checksum rmc; Nmea.with_checksum vtg;
    Nmea.with_checksum gll; Nmea.with_checksum gsa; Nmea.with_checksum zda ].

(** *** The inner loop of [main] *)

(** What one iteration of the inner [while True] consumes: the bytes
    [ser.readline()] returned (empty on a read timeout), the reading of
    [time.time()] that follows, and what a fallback emission would query. *)
Record Input := {
  raw : list Byte.byte;
  now : Q;
  pnt : Pnt;
  clock : nat -> Q
}.

(** [ser.readline().decode('ascii', errors='ignore').strip()] *)
Definition line_of (i : Input) : string :=
  Py.strip (Py.decode_ascii_ignore (raw i)).

(** [line.startswith('$GP') or line.startswith('$GN')] *)
Definition recognized (line : string) : bool :=
  Py.startswith line "$GP" || Py.startswith line "$GN".

Definition MSG_RESUMED : string :=
  "GPS data resumed, switching back from fallback."%string.
Definition MSG_SWITCH : string :=
  "No GPS data, switching to Starlink fallback."%string.

(** The first [if]: a recognized line stamps the timer, leaves fallback
    and is relayed. *)
Definition on_line (line : string) (now : Q) (s : State) : State * list event :=
  if recognized line then
    ({| last_gps_data_time := now; fallback_active := false |},
     (if fallback_active s then [Print MSG_RESUMED] else [])
       ++ [PipeWrite (line ++ CRLF); Print ("GPS: " ++ line)])
  else (s, []).

(** The second [if]: the lock-loss test. *)
Definition check_lock_loss (now : Q) (s : State) : State * list event :=
  if negb (fallback_active s)
     && Py.gtb (now - last_gps_data_time s) LOCK_LOSS_THRESHOLD
  then ({| last_gps_data_time := last_gps_data_time s;
           fallback_active := true |}, [Print MSG_SWITCH])
  else (s, []).

(** The body of [for nmea in sentences]: the write to the pipe (an
    attempt: a failure only prints a diagnostic), the echo and the pause. *)
Definition write_sentence (nmea : string) : list event :=
  [PipeWrite (nmea ++ CRLF); Print ("FALLBACK: " ++ nmea); Sleep (2 # 10)].

(** The third [if]: a synthesized batch in fallback, a pause otherwise. *)
Definition emit (ntp : Ntp) (i : Input) (s : State) : list event :=
  if fallback_active s then
    flat_map write_sentence (get_starlink_sentences ntp (pnt i) (clock i))
  else [Sleep UPDATE_INTERVAL].

Definition iteration (ntp : Ntp) (i : Input) (s : State) : State * list event :=
  let '(s1, out1) := on_line (line_of i) (now i) s in
  let '(s2, out2) := check_lock_loss (now i) s1 in
  (s2, out1 ++ out2 ++ emit ntp i s2).

(** Successive iterations, as long as the serial device raises nothing. *)
Fixpoint run (ntp : Ntp) (inputs : list Input) (s : State) : State * list event :=
  match inputs with
  | [] => (s, [])
  | i :: rest =>
      let '(s1, out1) := iteration ntp i s in
      let '(s2, out2) := run ntp rest s1 in
      (s2, out1 ++ out2)
  end.

(** *** The [serial.SerialException] handler of [main] *)

(** One pass of [while fallback_active]: a batch, a pause, then the test
    [os.path.exists(PRIMARY_GPS_DEVICE)], whose answer is [device_present]. *)
Definition fallback_cycle (ntp : Ntp) (i : Input) (device_present : bool)
    (s : State) : State * list event :=
  let out :=
    flat_map write_sentence (get_starlink_sentences ntp (pnt i) (clock i))
      ++ [Sleep 1] in
  if device_present
  then ({| last_gps_data_time := last_gps_data_time s;
           fallback_active := false |},
        out ++ [Print "GPS device reconnected, resuming normal operation."])
  else (s, out).

(** The handler up to its loop: the switch, printed only when it happens. *)
Definition on_serial_exception (s : State) : State * list event :=
  if fallback_active s then (s, [])
  else ({| last_gps_data_time := last_gps_data_time s;
           fallback_active := true |},
        [Print "Switching to Starlink fallback due to device error."]).

(** The number of lock-loss switches a trace records. *)
Definition is_switch (e : event) : bool :=
  match e with
  | Print s => String.eqb s MSG_SWITCH
  | _ => false
  end.

Definition switches (tr : list event) : nat :=
  List.length (filter is_switch tr).

End Fallback.

(** ** The NTP synchronisation shared by the scripts *)

(** How a [subprocess.run] call ends. *)
Inductive run_result :=
| Completed (returncode : Z) (stdout : string)
| TimeoutExpired
| FileNotFoundError
| OtherException.

(** The answers of the outside to one call of [sync_ntp_time]:
    [check_ntp_server()], the first tool ([sntp]) and the second one
    ([ntpdate] or [ntpdig]). *)
Record NtpEnv := {
  probe : bool;
  first_tool : run_result;
  second_tool : run_result
}.

(** The external calls a run of [sync_ntp_time] performs. *)
Inductive ext_call :=
| CallProbe
| CallTool (name : string).

Definition NTP_UPDATE_INTERVAL : Q := 60.

(** [result.returncode == 0 and result.stdout] *)
Definition usable_output (returncode : Z) (stdout : string) : bool :=
  (returncode =? 0) && negb (String.eqb stdout EmptyString).

(** The assignments of a successful synchronisation. *)
Definition synced (offset current_time : Q) : Ntp :=
  {| ntp_offset := offset; ntp_last_sync := current_time; ntp_available := true |}.

(** [ntp_available = False] *)
Definition unavailable (ntp : Ntp) : Ntp :=
  {| ntp_offset := ntp_offset ntp; ntp_last_sync := ntp_last_sync ntp;
     ntp_available := false |}.

(** ** [starlink_to_udp.py] *)

Module Udp.

Section Sync.

(** [float(result.stdout.strip().split()[0])], [None] for no word or a
    [ValueError]; and the scan of the lines of [ntpdate] for the word
    [offset] followed by a signed decimal. *)
Variable parse_sntp : string -> option Q.
Variable parse_ntpdate : string -> option Q.

(** [sync_ntp_time()], with [USE_NTP = True]. *)
Definition sync_ntp_time (env : NtpEnv) (current_time : Q) (ntp : Ntp)
    : Ntp * bool * list ext_call :=
  if Py.ltb (current_time - ntp_last_sync ntp) NTP_UPDATE_INTERVAL then
    (ntp, ntp_available ntp, [])
  else if negb (probe env) then
    (unavailable ntp, false, [CallProbe])
  else
    let fail calls := (unavailable ntp, false, calls) in
    match first_tool env with
    | Completed rc out =>
        match (if usable_output rc out then parse_sntp out else None) with
        | Some offset =>
            (synced offset current_time, true, [CallProbe; CallTool "sntp"])
        | None => fail [CallProbe; CallTool "sntp"]
        end
    | TimeoutExpired => fail [CallProbe; CallTool "sntp"]
    | FileNotFoundError =>
        let calls := [CallProbe; CallTool "sntp"; CallTool "ntpdate"] in
        match second_tool env with
        | Completed rc out =>
            match (if usable_output rc out then parse_ntpdate out else None) with
            | Some offset => (synced offset current_time, true, calls)
            | None => fail calls
            end
        | FileNotFoundError => (ntp, false, calls)
        | _ => fail calls
        end
    | OtherException => fail [CallProbe; CallTool "sntp"]
    end.

End Sync.

(** [get_ntp_timestamp()] *)
Definition get_ntp_timestamp (ntp : Ntp) (time_time : Q) : Q :=
  if ntp_available ntp then (time_time + ntp_offset ntp)%Q else time_time.

(** [generate_nmea_sentences()]; [pnt] is what [get_starlink_pnt()]
    returned and [time_time] the wall clock when the time is taken. *)
Definition generate_nmea_sentences (ntp : Ntp) (pnt : Pnt) (time_time : Q)
    : list string :=
  let lat := or_default (lat pnt) 0%Q in
  let lon := or_default (lon pnt) 0%Q in
  let alt := or_default (alt pnt) 0%Q in
  let gps_sats := or_default (gps_sats pnt) 0 in
  let gps_valid := or_default (gps_valid pnt) false in
  let accuracy := 1%Q in
  if Py.eqb lat 0 && Py.eqb lon 0 then []
  else
    let now :=
      if ntp_available ntp
      then Datetime.utcfromtimestamp (get_ntp_timestamp ntp time_time)
      else Datetime.utcfromtimestamp time_time in
    let time_str := Nmea.time_str now in
    let date_str := Datetime.strftime_dmy now in
    let lat_str := Nmea.nmea_lat lat in
    let lon_str := Nmea.nmea_lon lon in
    let fix_quality := if gps_valid then 1 else 0 in
    let gga := Nmea.gga time_str lat_str lon_str fix_quality gps_sats
                 accuracy alt in
    let rmc := Nmea.rmc time_str gps_valid lat_str lon_str date_str in
    let vtg := Nmea.vtg in
    let gll := Nmea.gll lat_str lon_str time_str gps_valid in
    let gsa := Nmea.gsa accuracy in
    [ Nmea.with_checksum gga; Nmea.with_checksum rmc; Nmea.with_checksum vtg;
      Nmea.with_checksum gll; Nmea.with_checksum gsa ].

End Udp.

(** ** [starlink_mavlink_gps.py] *)

Module Mavlink.

Section Sync.

(** The search for a signed decimal between [)] and [+/-] in the output of
    [sntp] or [ntpdig], then [float]; [None] for no match or a
    [ValueError]. *)
Variable parse_offset : string -> option Q.

(** One turn of [for ntp_cmd in ['sntp', 'ntpdig']]: the offset when the
    tool gave one. *)
Definition try_tool (r : run_result) : option Q :=
  match r with
  | Completed rc out => if usable_output rc out then parse_offset out else None
  | _ => None
  end.

(** [sync_ntp_time()], with [USE_NTP = True]. *)
Definition sync_ntp_time (env : NtpEnv) (current_time : Q) (ntp : Ntp)
    : Ntp * bool * list ext_call :=
  if Py.ltb (current_time - ntp_last_sync ntp) NTP_UPDATE_INTERVAL then
    (ntp, ntp_available ntp, [])
  else if negb (probe env) then
    (unavailable ntp, false, [CallProbe])
  else
    match try_tool (first_tool env) with
    | Some offset =>
        (synced offset current_time, true, [CallProbe; CallTool "sntp"])
    | None =>
        let calls := [CallProbe; CallTool "sntp"; CallTool "ntpdig"] in
        match try_tool (second_tool env) with
        | Some offset => (synced offset current_time, true, calls)
        | None => (unavailable ntp, false, calls)
        end
    end.

End Sync.

(** [get_ntp_timestamp()] *)
Definition get_ntp_timestamp (ntp : Ntp) (time_time : Q) : Q :=
  (time_time + (if ntp_available ntp then ntp_offset ntp else 0))%Q.

(** The 18 positional arguments of [master.mav.gps_input_send], in the
    order the script passes them. *)
Record GpsInput := {
  timestamp_us : Z;
  gps_id : Z;
  ignore_flags : Z;
  time_week_ms : Z;
  gps_week : Z;
  time_accuracy : Z;
  lat_e7 : Z;
  lon_e7 : Z;
  alt_mm : Z;
  hdop : Q;
  vdop : Q;
  ground_speed : Q;
  ground_track : Q;
  satellites_visible : Z;
  fix_type : Z;
  horiz_accuracy : Z;
  vert_accuracy : Z;
  speed_accuracy : Z
}.

(** The link [master] and the counter [total_sent]. *)
Record Link := {
  sent : list GpsInput;
  total_sent : Z
}.

(** [datetime(1980, 1, 6, tzinfo=timezone.utc)], in microseconds since the
    Unix epoch. *)
Definition gps_epoch_us : Z := 315964800 * 1000000.

Definition gps_utc_offset : Q := 18.

(** [(current_dt - gps_epoch).total_seconds() + gps_utc_offset] *)
Definition time_since_gps_epoch (current_time : Q) : Q :=
  (inject_Z (Datetime.timestamp_us current_time - gps_epoch_us) / 1000000
   + gps_utc_offset)%Q.

(** [gps_week] and [time_week_ms] of [send_gps_input]. *)
Definition gps_time (current_time : Q) : Z * Z :=
  let elapsed := time_since_gps_epoch current_time in
  let gps_week := Py.int (elapsed / 604800) in
  let time_week := Py.fmod elapsed 604800 in
  let time_week_ms := Py.int (time_week * 1000) in
  (gps_week, time_week_ms).

(** The bit mask of the fields the receiver must disregard. *)
Definition IGNORE_FLAGS : Z :=
  Z.lor 8 (Z.lor 16 (Z.lor 32 (Z.lor 64 (Z.lor 128 (Z.lor 256 512))))).

(** Truthiness of an optional number: [x if x else d]. *)
Definition truthy_or (x : option Z) (d : Z) : Z :=
  match x with
  | Some v => if v =? 0 then d else v
  | None => d
  end.

Definition truthy_or_q (x : option Q) (d : Q) : Q :=
  match x with
  | Some v => if Py.eqb v 0 then d else v
  | None => d
  end.

(** [send_gps_input(pnt)]; [time_time] is the wall clock read by
    [get_ntp_timestamp()]. *)
Definition send_gps_input (ntp : Ntp) (time_time : Q) (pnt : Pnt) (link : Link)
    : bool * Link :=
  match lat pnt, lon pnt with
  | Some pnt_lat, Some pnt_lon =>
      let current_time := get_ntp_timestamp ntp time_time in
      let '(week, week_ms) := gps_time current_time in
      let msg :=
        {| timestamp_us := Py.int (current_time * 1000000);
           gps_id := 0;
           ignore_flags := IGNORE_FLAGS;
           time_week_ms := week_ms;
           gps_week := week;
           time_accuracy := 0;
           lat_e7 := Py.int (pnt_lat * 10000000);
           lon_e7 := Py.int (pnt_lon * 10000000);
           alt_mm := Py.int (truthy_or_q (alt pnt) 0 * 1000);
           hdop := 0; vdop := 0; ground_speed := 0; ground_track := 0;
           satellites_visible := truthy_or (gps_sats pnt) 10;
           fix_type := match gps_valid pnt with Some true => 3 | _ => 0 end;
           horiz_accuracy := 0; vert_accuracy := 0; speed_accuracy := 0 |} in
      (true, {| sent := sent link ++ [msg]; total_sent := total_sent link + 1 |})
  | _, _ => (false, link)
  end.

(** The part of one pass of the main loop that depends on the fix: the
    call, the count of successful cycles and the warning of a skipped
    one (the line printed after a successful call is left out). *)
Definition cycle (ntp : Ntp) (time_time : Q) (pnt : Pnt) (link : Link)
    (cycle_count : Z) : Link * Z * list event :=
  let '(ok, link') := send_gps_input ntp time_time pnt link in
  if ok then (link', cycle_count + 1, [])
  else (link', cycle_count,
        [Print "Warning: No valid position data from Starlink"]).

End Mavlink.

(** ** [get_starlink_pnt], the same in the three scripts *)

Module Starlink.

(** What [json.loads] returns. *)
#[warnings="-register-all"]
Inductive json :=
| JNull
| JBool (b : bool)
| JInt (z : Z)
| JFloat (q : Q)
| JStr (s : string)
| JList (l : list json)
| JDict (d : list (string * json)).

(** Lookup in a [dict], held as the list of its items. *)
Fixpoint dict_get (d : list (string * json)) (key : string) : option json :=
  match d with
  | [] => None
  | (k, v) :: r => if String.eqb k key then Some v else dict_get r key
  end.

(** [x.get(key, {})]; [None] stands for the [AttributeError] of a value
    that is no [dict]. *)
Definition get_or_empty (x : json) (key : string) : option json :=
  match x with
  | JDict d => Some (or_default (dict_get d key) (JDict []))
  | _ => None
  end.

(** [x.get(key)]: Python's [None] is [JNull]. *)
Definition get (x : json) (key : string) : option json :=
  match x with
  | JDict d => Some (or_default (dict_get d key) JNull)
  | _ => None
  end.

(** The dictionary the function returns, before any reading of its
    values. *)
Record RawPnt := {
  raw_lat : json;
  raw_lon : json;
  raw_alt : json;
  raw_accuracy : json;
  raw_gps_sats : json;
  raw_gps_valid : json
}.

(** The first [try]: the three assignments happen together or not at all,
    since they read the same [lla]. *)
Definition location_fields (loc_json : option json) : json * json * json :=
  match loc_json with
  | Some doc =>
      match get_or_empty doc "getLocation" with
      | Some get_location =>
          match get_or_empty get_location "lla" with
          | Some lla =>
              match get lla "lat", get lla "lon", get lla "alt" with
              | Some la, Some lo, Some al => (la, lo, al)
              | _, _, _ => (JNull, JNull, JNull)
              end
          | None => (JNull, JNull, JNull)
          end
      | None => (JNull, JNull, JNull)
      end
  | None => (JNull, JNull, JNull)
  end.

(** The second [try]. *)
Definition status_fields (stat_json : option json) : json * json :=
  match stat_json with
  | Some doc =>
      match get_or_empty doc "dishGetStatus" with
      | Some status =>
          match get_or_empty status "gpsStats" with
          | Some gps_stats =>
              match get gps_stats "gpsSats", get gps_stats "gpsValid" with
              | Some sats, Some valid => (sats, valid)
              | _, _ => (JNull, JNull)
              end
          | None => (JNull, JNull)
          end
      | None => (JNull, JNull)
      end
  | None => (JNull, JNull)
  end.

(** [get_starlink_pnt()].  Each argument is what
    [json.loads(subprocess.check_output(...).decode())] gave for one of
    the two queries, [None] when that expression raised. *)
Definition get_starlink_pnt (loc_json stat_json : option json) : RawPnt :=
  let '(la, lo, al) := location_fields loc_json in
  let '(sats, valid) := status_fields stat_json in
  {| raw_lat := la; raw_lon := lo; raw_alt := al; raw_accuracy := JNull;
     raw_gps_sats := sats; raw_gps_valid := valid |}.

(** A number of the document, as the float the encoders compute with. *)
Definition as_number (j : json) : option (option Q) :=
  match j with
  | JNull => Some None
  | JInt z => Some (Some (inject_Z z))
  | JFloat q => Some (Some q)
  | _ => None
  end.

Definition as_int (j : json) : option (option Z) :=
  match j with
  | JNull => Some None
  | JInt z => Some (Some z)
  | _ => None
  end.

Definition as_bool (j : json) : option (option bool) :=
  match j with
  | JNull => Some None
  | JBool b => Some (Some b)
  | _ => None
  end.

(** The fix of a dictionary whose values have the types the encoders
    expect: numbers for the position, an integer count, a boolean flag. *)
Definition typed (r : RawPnt) : option Pnt :=
  match as_number (raw_lat r), as_number (raw_lon r), as_number (raw_alt r),
        as_number (raw_accuracy r), as_int (raw_gps_sats r),
        as_bool (raw_gps_valid r) with
  | Some la, Some lo, Some al, Some ac, Some sats, Some valid =>
      Some {| lat := la; lon := lo; alt := al; accuracy := ac;
              gps_sats := sats; gps_valid := valid |}
  | _, _, _, _, _, _ => None
  end.

End Starlink.

(** ** The main loops around the encoders *)

(** The globals after [ntp_last_sync = current_time]. *)
Definition stamped (ntp : Ntp) (current_time : Q) : Ntp :=
  {| ntp_offset := ntp_offset ntp; ntp_last_sync := current_time;
     ntp_available := ntp_available ntp |}.

Module UdpMain.

Section Loop.

Variable parse_sntp : string -> option Q.
Variable parse_ntpdate : string -> option Q.

(** The periodic update at the head of the loop: [current_time] is the
    reading of the loop and [sync_time] the one [sync_ntp_time] takes for
    itself. *)
Definition update_ntp (env : NtpEnv) (current_time sync_time : Q) (ntp : Ntp)
    : Ntp * list ext_call :=
  if Py.geb (current_time - ntp_last_sync ntp) NTP_UPDATE_INTERVAL then
    let '(ntp1, _, calls) :=
      Udp.sync_ntp_time parse_sntp parse_ntpdate env sync_time ntp in
    (stamped ntp1 current_time, calls)
  else (ntp, []).

End Loop.

(** The socket and the counter [total_sent]. *)
Record Net := {
  datagrams : list (list Byte.byte);
  total_sent : Z
}.

(** [message.encode('ascii')]; [None] stands for [UnicodeEncodeError]. *)
Fixpoint encode_ascii (message : string) : option (list Byte.byte) :=
  match message with
  | EmptyString => Some []
  | String c r =>
      if (N_of_ascii c <? 128)%N then
        match encode_ascii r with
        | Some b => Some (byte_of_ascii c :: b)
        | None => None
        end
      else None
  end.

(** [send_udp(message)]; [sock_ok] tells whether [sendto] returned.  The
    warning printed on failure is left out. *)
Definition send_udp (sock_ok : bool) (message : string) (net : Net) : bool * Net :=
  match encode_ascii message with
  | Some payload =>
      if sock_ok then
        (true, {| datagrams := datagrams net ++ [payload ++ [Byte.x0d; Byte.x0a]];
                  total_sent := total_sent net + 1 |})
      else (false, net)
  | None => (false, net)
  end.

(** [for sentence in sentences: send_udp(sentence)], the [k]-th call of
    the cycle meeting the socket answer [sock k]. *)
Fixpoint send_all (sock : nat -> bool) (k : nat) (sentences : list string)
    (net : Net) : Net :=
  match sentences with
  | [] => net
  | sentence :: rest =>
      send_all sock (S k) rest (snd (send_udp (sock k) sentence net))
  end.

(** The sending part of one pass of the loop, with [cycle_count]. *)
Definition cycle (ntp : Ntp) (pnt : Pnt) (time_time : Q) (sock : nat -> bool)
    (net : Net) (cycle_count : Z) : Net * Z :=
  match Udp.generate_nmea_sentences ntp pnt time_time with
  | [] => (net, cycle_count)
  | sentences => (send_all sock 0 sentences net, cycle_count + 1)
  end.

End UdpMain.

Module MavlinkMain.

Section Loop.

Variable parse_offset : string -> option Q.

(** The periodic update at the head of the loop. *)
Definition update_ntp (env : NtpEnv) (current_time sync_time : Q) (ntp : Ntp)
    : Ntp * list ext_call :=
  if Py.geb (current_time - ntp_last_sync ntp) NTP_UPDATE_INTERVAL then
    let '(ntp1, _, calls) :=
      Mavlink.sync_ntp_time parse_offset env sync_time ntp in
    (stamped ntp1 current_time, calls)
  else (ntp, []).

End Loop.


End MavlinkMain.

Module FallbackMain.



(** How a write to the pipe ends in the device-error handler. *)
Inductive write_result :=
| WriteOk
| BrokenPipe
| WriteError (e : string).

Definition MSG_BROKEN_PIPE : string :=
  "Pipe write error: Broken pipe (no gpsd reader connected)"%string.

(** The body of [for nmea in sentences] in the handler.  The flag is
    [pipe_error_logged]; here [PipeWrite] is a write that went through. *)
Definition handler_write (nmea : string) (r : write_result) (logged : bool)
    : bool * list event :=
  match r with
  | WriteOk =>
      (false,
       [PipeWrite (nmea ++ CRLF); Print ("FALLBACK: " ++ nmea); Sleep (2 # 10)])
  | BrokenPipe =>
      (true, (if logged then [] else [Print MSG_BROKEN_PIPE]) ++ [Sleep 1])
  | WriteError e =>
      (logged,
       [Print ("Pipe write error: " ++ e); Print ("FALLBACK: " ++ nmea);
        Sleep (2 # 10)])
  end.

Fixpoint handler_batch (sentences : list string) (results : nat -> write_result)
    (k : nat) (logged : bool) : bool * list event :=
  match sentences with
  | [] => (logged, [])
  | nmea :: rest =>
      let '(l1, out1) := handler_write nmea (results k) logged in
      let '(l2, out2) := handler_batch rest results (S k) l1 in
      (l2, out1 ++ out2)
  end.

(** What one pass of [while fallback_active] meets: the fix and clock of
    the batch, the ends of its writes and the answer of
    [os.path.exists(PRIMARY_GPS_DEVICE)]. *)
Record Pass := {
  pass_pnt : Pnt;
  pass_clock : nat -> Q;
  pass_results : nat -> write_result;
  device_present : bool
}.

(** The loop of the handler, entered in fallback: it runs until the
    device path is present, or as far as the passes given. *)
Fixpoint handler_loop (ntp : Ntp) (passes : list Pass) (logged : bool)
    : bool * list event :=
  match passes with
  | [] => (true, [])
  | p :: rest =>
      let '(l1, out1) :=
        handler_batch
          (Fallback.get_starlink_sentences ntp (pass_pnt p) (pass_clock p))
          (pass_results p) 0 logged in
      if device_present p then
        (false,
         out1 ++ [Sleep 1;
                  Print "GPS device reconnected, resuming normal operation."])
      else
        let '(active, out2) := handler_loop ntp rest l1 in
        (active, out1 ++ [Sleep 1] ++ out2)
  end.

(** The lines written to the pipe, in order. *)
Fixpoint pipe_writes (tr : list event) : list string :=
  match tr with
  | [] => []
  | PipeWrite s :: r => s :: pipe_writes r
  | _ :: r => pipe_writes r
  end.

(** How often a line was printed. *)
Fixpoint printed (msg : string) (tr : list event) : nat :=
  match tr with
  | [] => O
  | Print s :: r => ((if String.eqb s msg then 1 else 0) + printed msg r)%nat
  | _ :: r => printed msg r
  end.

End FallbackMain.

(** ** Notions the properties are stated with *)

(** A line begins with one of the two talker prefixes. *)
Definition talker_prefix (line : string) : Prop :=
  exists rest, line = ("$GP" ++ rest)%string \/ line = ("$GN" ++ rest)%string.


(** Every character of a string passes a test. *)
Fixpoint all_chars (p : ascii -> bool) (s : string) : bool :=
  match s with
  | EmptyString => true
  | String c r => p c && all_chars p r
  end.

Definition is_digit (c : ascii) : bool :=
  let n := N_of_ascii c in ((48 <=? n) && (n <=? 57))%N.

(** The characters a formatted number is made of. *)
Definition numeric_char (c : ascii) : bool :=
  is_digit c || Ascii.eqb c "." || Ascii.eqb c "-".

Definition not_star (c : ascii) : bool := negb (Ascii.eqb c "*").
Definition not_comma (c : ascii) : bool := negb (Ascii.eqb c ",").

(** The [n]-th comma-separated field of a sentence, counted from 0. *)
Fixpoint field (n : nat) (s : string) : string :=
  match s with
  | EmptyString => EmptyString
  | String c r =>
      if Ascii.eqb c "," then
        match n with
        | O => EmptyString
        | S k => field k r
        end
      else
        match n with
        | O => String c (field O r)
        | S _ => field n r
        end
  end.

(** The text before the first [*] and the text after it. *)
Fixpoint split_at_star (s : string) : option (string * string) :=
  match s with
  | EmptyString => None
  | String c r =>
      if Ascii.eqb c "*" then Some (EmptyString, r)
      else
        match split_at_star r with
        | Some (before, after) => Some (String c before, after)
        | None => None
        end
  end.

(** The value of an uppercase hexadecimal digit. *)
Definition hex_value (c : ascii) : option Z :=
  let n := Z.of_N (N_of_ascii c) in
  if (48 <=? n) && (n <=? 57) then Some (n - 48)
  else if (65 <=? n) && (n <=? 70) then Some (n - 55)
  else None.

(** The exclusive-or of the character codes of a string. *)
Fixpoint xor_bytes (s : string) : Z :=
  match s with
  | EmptyString => 0
  | String c r => Z.lxor (Py.ord c) (xor_bytes r)
  end.

(** A receiver's check of a sentence: it begins with [$], has a [*], and
    what follows the [*] is exactly two uppercase hexadecimal digits whose
    value is the exclusive-or of the characters between [$] and [*]. *)
Definition checksum_valid (sentence : string) : bool :=
  match sentence with
  | String c r =>
      if Ascii.eqb c "$" then
        match split_at_star r with
        | Some (payload, String h (String l EmptyString)) =>
            match hex_value h, hex_value l with
            | Some a, Some b => 16 * a + b =? xor_bytes payload
            | _, _ => false
            end
        | _ => false
        end
      else false
  | EmptyString => false
  end.

(** What [:02X] prints is two digits that read back as the number. *)
Definition hex_round_trip (v : Z) : bool :=
  match Py.format_X 2 v with
  | String h (String l EmptyString) =>
      match hex_value h, hex_value l with
      | Some a, Some b => 16 * a + b =? v
      | _, _ => false
      end
  | _ => false
  end.

(** The kind of a sentence, read from its address field. *)
Inductive kind := GGA | RMC | VTG | GLL | GSA | ZDA.

Definition kind_of (sentence : string) : option kind :=
  let address := field 0 sentence in
  if String.eqb address "$GPGGA" then Some GGA
  else if String.eqb address "$GPRMC" then Some RMC
  else if String.eqb address "$GPVTG" then Some VTG
  else if String.eqb address "$GPGLL" then Some GLL
  else if String.eqb address "$GPGSA" then Some GSA
  else if String.eqb address "$GPZDA" then Some ZDA
  else None.

(** A fix with its latitude, or its longitude, replaced. *)
Definition with_lat (pnt : Pnt) (v : option Q) : Pnt :=
  {| lat := v; lon := lon pnt; alt := alt pnt; accuracy := accuracy pnt;
     gps_sats := gps_sats pnt; gps_valid := gps_valid pnt |}.

Definition with_lon (pnt : Pnt) (v : option Q) : Pnt :=
  {| lat := lat pnt; lon := v; alt := alt pnt; accuracy := accuracy pnt;
     gps_sats := gps_sats pnt; gps_valid := gps_valid pnt |}.

(** A printable character of the ASCII range. *)
Definition printable (c : ascii) : bool :=
  let n := N_of_ascii c in ((32 <=? n) && (n <=? 126))%N.

(** The sentences of a batch whose [sendto] returned, the [k]-th send of
    the cycle meeting the answer [sock k]. *)
Fixpoint delivered (sock : nat -> bool) (k : nat) (sentences : list string)
    : list string :=
  match sentences with
  | [] => []
  | s :: r => if sock k then s :: delivered sock (S k) r else delivered sock (S k) r
  end.

(** A sentence on the wire: its characters, then CR and LF. *)
Definition wire (sentence : string) : list Byte.byte :=
  list_byte_of_string (sentence ++ CRLF).


(** Reading a coordinate back, as a receiver does: [w] digits of
    degrees, then minutes as [MM.MMMM], a comma and the hemisphere. *)
Definition digit_value (c : ascii) : option Z :=
  if is_digit c then Some (Z.of_N (N_of_ascii c) - 48) else None.

Fixpoint number_of (acc : Z) (s : string) : option Z :=
  match s with
  | EmptyString => Some acc
  | String c r =>
      match digit_value c with
      | Some d => number_of (10 * acc + d) r
      | None => None
      end
  end.


(** A number printed with [w] digits has [w] characters and reads back. *)
Definition padded_ok (w : nat) (v : Z) : bool :=
  (String.length (Py.format_d w v) =? w)%nat
  && match number_of 0 (Py.format_d w v) with
     | Some x => x =? v
     | None => false
     end.

(** A test holds for [fuel] consecutive integers from [k] on. *)
Fixpoint all_from (fuel : nat) (k : Z) (p : Z -> bool) : bool :=
  match fuel with
  | O => true
  | S f => p k && all_from f (k + 1) p
  end.

(** The six digits of the microseconds begin with the two digits of the
    hundredths of a second. *)
Definition hundredths_ok (us : Z) : bool :=
  String.eqb (substring 0 2 (Py.format_d 6 us)) (Py.format_d 2 (us / 10000))
  && (String.length (Py.format_d 6 us) =? 6)%nat.

(** ** Concrete inputs *)

Module Sample.

Definition ntp_off : Ntp :=
  {| ntp_offset := 0; ntp_last_sync := 0; ntp_available := false |}.

Definition ntp_on : Ntp :=
  {| ntp_offset := 1 # 4; ntp_last_sync := 1735689600; ntp_available := true |}.

(** The fix of the scenario: 47.6 N, 122.3 W, 10 m, 8 satellites, valid. *)
Definition fix_seattle : Pnt :=
  {| lat := Some (476 # 10); lon := Some (- (1223 # 10))%Q; alt := Some 10%Q;
     accuracy := None; gps_sats := Some 8; gps_valid := Some true |}.

(** Both queries failed. *)
Definition fix_none : Pnt :=
  {| lat := None; lon := None; alt := None;
     accuracy := None; gps_sats := None; gps_valid := None |}.

(** A position without the status document. *)
Definition fix_no_status : Pnt :=
  {| lat := Some (476 # 10); lon := Some (- (1223 # 10))%Q; alt := Some 10%Q;
     accuracy := None; gps_sats := None; gps_valid := None |}.

(** 2025-01-01T00:00:00Z, then a fifth of a second per sampling. *)
Definition clock_2025 (k : nat) : Q :=
  (1735689600 + inject_Z (Z.of_nat k) * (2 # 10))%Q.

(** A sentence of the local receiver, as the serial port delivers it. *)
Definition gga_bytes : list Byte.byte :=
  list_byte_of_string
    ("$GPGGA,000000.00,4736.0000,N,12218.0000,W,1,8,1.0,10.0,M,0.0,M,,*48" ++ CRLF).

(** A longitude of exactly 0 and no latitude. *)
Definition fix_meridian_no_lat : Pnt :=
  {| lat := None; lon := Some 0%Q; alt := Some 10%Q;
     accuracy := None; gps_sats := Some 8; gps_valid := Some true |}.

(** A longitude and no latitude. *)
Definition fix_no_lat : Pnt :=
  {| lat := None; lon := Some (- (1223 # 10))%Q; alt := Some 10%Q;
     accuracy := None; gps_sats := Some 8; gps_valid := Some true |}.

(** A genuine fix at 0 N, 0 E. *)
Definition fix_origin : Pnt :=
  {| lat := Some 0%Q; lon := Some 0%Q; alt := Some 10%Q;
     accuracy := None; gps_sats := Some 8; gps_valid := Some true |}.

(** The time source answers the probe but the query tools time out. *)
Definition env_timeout : NtpEnv :=
  {| probe := true; first_tool := TimeoutExpired; second_tool := TimeoutExpired |}.

(** An output of [sntp] in the format the MAVLink script documents, and
    one whose first word is the offset, as the UDP script reads it. *)
Definition sntp_line : string :=
  "2025-12-29 09:20:42.513019 (-0500) +0.500000 +/- 0.002686 192.168.100.1 s1 no-leap".

Definition sntp_offset_first : string :=
  "+0.500000 +/- 0.002686 192.168.100.1 s1 no-leap".

(** The time source answers and [sntp] prints an offset of half a second. *)
Definition env_ok : NtpEnv :=
  {| probe := true; first_tool := Completed 0 sntp_line;
     second_tool := FileNotFoundError |}.

Definition env_ok_first_word : NtpEnv :=
  {| probe := true; first_tool := Completed 0 sntp_offset_first;
     second_tool := FileNotFoundError |}.

(** The parsers on the outputs above: the search for a signed decimal
    between [)] and [+/-] finds [+0.500000] in [sntp_line], and [float]
    of the first word of [sntp_offset_first] is 0.5. *)
Definition parse_offset (stdout : string) : option Q :=
  if String.eqb stdout sntp_line then Some (1 # 2) else None.

Definition parse_first_word (stdout : string) : option Q :=
  if String.eqb stdout sntp_offset_first then Some (1 # 2) else None.

(** The lines of [ntpdate] are not used by the samples. *)
Definition parse_ntpdate (stdout : string) : option Q := None.

(** The NTP globals when a script starts. *)
Definition ntp_initial : Ntp :=
  {| ntp_offset := 0; ntp_last_sync := 0; ntp_available := false |}.

(** An autopilot link on which nothing was sent yet. *)
Definition link_fresh : Mavlink.Link :=
  {| Mavlink.sent := []; Mavlink.total_sent := 0 |}.

(** The answer to [get_location] and the answer to [get_status]. *)
Definition lla_items : list (string * Starlink.json) :=
  [("lat", Starlink.JFloat (476 # 10));
   ("lon", Starlink.JFloat (- (1223 # 10)));
   ("alt", Starlink.JInt 10)]%string.

Definition get_location_items : list (string * Starlink.json) :=
  [("lla", Starlink.JDict lla_items);
   ("sigmaM", Starlink.JFloat (5 # 1))]%string.

Definition location_items : list (string * Starlink.json) :=
  [("apiVersion", Starlink.JStr "38");
   ("getLocation", Starlink.JDict get_location_items)]%string.

Definition location_doc : Starlink.json := Starlink.JDict location_items.

Definition gps_stats_items : list (string * Starlink.json) :=
  [("gpsValid", Starlink.JBool true); ("gpsSats", Starlink.JInt 8)]%string.

Definition dish_status_items : list (string * Starlink.json) :=
  [("gpsStats", Starlink.JDict gps_stats_items)]%string.

Definition status_items : list (string * Starlink.json) :=
  [("dishGetStatus", Starlink.JDict dish_status_items)]%string.

Definition status_doc : Starlink.json := Starlink.JDict status_items.

(** A recognized line read at [t]. *)
Definition input_gps (t : Q) : Fallback.Input :=
  {| Fallback.raw := gga_bytes; Fallback.now := t;
     Fallback.pnt := fix_seattle; Fallback.clock := clock_2025 |}.

(** A read that timed out at [t]: no bytes. *)
Definition input_timeout (t : Q) : Fallback.Input :=
  {| Fallback.raw := []; Fallback.now := t;
     Fallback.pnt := fix_seattle; Fallback.clock := clock_2025 |}.

End Sample.

(** * Properties *)

(** ** The model on concrete inputs *)

Example format_f_minutes : Py.format_f 7 4 (36 # 1) = "36.0000"%string.
Proof. reflexivity. Qed.

Example format_f_half_even : Py.format_f 0 1 (25 # 100) = "0.2"%string.
Proof. reflexivity. Qed.

Example format_f_negative : Py.format_f 8 4 (- (3 # 2)) = "-01.5000"%string.
Proof. reflexivity. Qed.

Example format_d_pad : Py.format_d 3 7 = "007"%string.
Proof. reflexivity. Qed.

Example format_X_pad : Py.format_X 2 10 = "0A"%string.
Proof. reflexivity. Qed.

Example strip_line :
  Py.strip (String "009" (" $GPGGA,1 " ++ String "013" (String "010" ""))) = "$GPGGA,1"%string.
Proof. reflexivity. Qed.

Example int_truncates : Py.int (- (7 # 2)) = -3 /\ Py.int (7 # 2) = 3.
Proof. split; reflexivity. Qed.

Example fmod_sign : (Py.fmod (- (1 # 2)) 3 == 5 # 2)%Q.
Proof. reflexivity. Qed.

Example utc_2025 :
  Datetime.utcfromtimestamp (1735689600 # 1)
  = Datetime.Build_datetime 2025 1 1 0 0 0 0.
Proof. reflexivity. Qed.

Example utc_leap_day :
  Datetime.utcfromtimestamp (9517967990625 # 10000)
  = Datetime.Build_datetime 2000 2 29 3 59 59 62500.
Proof. reflexivity. Qed.

Example utc_gps_epoch :
  Datetime.utcfromtimestamp (315964800 # 1)
  = Datetime.Build_datetime 1980 1 6 0 0 0 0.
Proof. reflexivity. Qed.

Example nmea_lat_seattle : Nmea.nmea_lat (476 # 10) = "4736.0000,N"%string.
Proof. reflexivity. Qed.

Example nmea_lon_seattle : Nmea.nmea_lon (- (1223 # 10)) = "12218.0000,W"%string.
Proof. reflexivity. Qed.

Example checksum_vtg : Nmea.with_checksum Nmea.vtg = "$GPVTG,0.0,T,,M,0.0,N,0.0,K,*4C"%string.
Proof. reflexivity. Qed.

Example udp_scenario :
  Udp.generate_nmea_sentences
    {| ntp_offset := 0; ntp_last_sync := 0; ntp_available := false |}
    {| lat := Some (476 # 10); lon := Some (- (1223 # 10))%Q; alt := Some 10%Q;
       accuracy := None; gps_sats := Some 8; gps_valid := Some true |}
    (1735689600 # 1)
  = [ "$GPGGA,000000.00,4736.0000,N,12218.0000,W,1,8,1.0,10.0,M,0.0,M,,*48";
      "$GPRMC,000000.00,A,4736.0000,N,12218.0000,W,0.0,0.0,010125,,*28";
      "$GPVTG,0.0,T,,M,0.0,N,0.0,K,*4C";
      "$GPGLL,4736.0000,N,12218.0000,W,000000.00,A,*34";
      "$GPGSA,A,3,01,02,03,04,05,06,07,08,09,10,11,12,1.0,1.0,1.0*30" ]%string.
Proof. vm_compute. reflexivity. Qed.

Example gps_time_2025 :
  Mavlink.gps_time (1735689600 # 1) = (2347, 259218000).
Proof. vm_compute. reflexivity. Qed.

Example ignore_flags_value : Mavlink.IGNORE_FLAGS = 1016.
Proof. reflexivity. Qed.

Example checksum_valid_accepts :
  checksum_valid "$GPVTG,0.0,T,,M,0.0,N,0.0,K,*4C" = true.
Proof. reflexivity. Qed.

Example checksum_valid_rejects :
  checksum_valid "$GPVTG,0.0,T,,M,0.0,N,0.0,K,*4D" = false
  /\ checksum_valid "$GPVTG,0.0,T,,M,0.0,N,0.0,K,*4c" = false
  /\ checksum_valid "$GPVTG,0.0,T,,M,0.0,N,0.0,K,*4C0" = false
  /\ checksum_valid "GPVTG,0.0,T,,M,0.0,N,0.0,K,*4C" = false.
Proof. repeat split; reflexivity. Qed.

Example field_of_gga :
  field 6 "$GPGGA,000000.00,4736.0000,N,12218.0000,W,1,8,1.0,10.0,M,0.0,M,,*48"
  = "1"%string.
Proof. reflexivity. Qed.

Example corrected_time :
  (Fallback.get_ntp_timestamp Sample.ntp_on 1735689600 == 17356896002500 # 10000)%Q
  /\ (Fallback.get_ntp_timestamp Sample.ntp_off 1735689600 == 1735689600)%Q
  /\ (Mavlink.get_ntp_timestamp Sample.ntp_on 1735689600 == 17356896002500 # 10000)%Q.
Proof. repeat split; reflexivity. Qed.

(** A read that times out in PRIMARY, 30 seconds after the last sentence:
    nothing but the pause. *)
Example quiet_iteration :
  Fallback.iteration Sample.ntp_off (Sample.input_timeout 1030)
    {| Fallback.last_gps_data_time := 1000; Fallback.fallback_active := false |}
  = ({| Fallback.last_gps_data_time := 1000; Fallback.fallback_active := false |},
     [Sleep (2 # 10)]).
Proof. reflexivity. Qed.

Example scenario_message :
  Mavlink.send_gps_input Sample.ntp_off (1735689600 # 1) Sample.fix_seattle
    Sample.link_fresh
  = (true,
     {| Mavlink.sent :=
          [ {| Mavlink.timestamp_us := 1735689600000000; Mavlink.gps_id := 0;
               Mavlink.ignore_flags := 1016; Mavlink.time_week_ms := 259218000;
               Mavlink.gps_week := 2347; Mavlink.time_accuracy := 0;
               Mavlink.lat_e7 := 476000000; Mavlink.lon_e7 := -1223000000;
               Mavlink.alt_mm := 10000;
               Mavlink.hdop := 0; Mavlink.vdop := 0;
               Mavlink.ground_speed := 0; Mavlink.ground_track := 0;
               Mavlink.satellites_visible := 8; Mavlink.fix_type := 3;
               Mavlink.horiz_accuracy := 0; Mavlink.vert_accuracy := 0;
               Mavlink.speed_accuracy := 0 |} ];
        Mavlink.total_sent := 1 |}).
Proof. vm_compute. reflexivity. Qed.

(** Without any fix the fallback bridge still emits its batch, from the
    placeholder defaults, and the UDP bridge emits nothing. *)
Example scenario_no_fix :
  Fallback.get_starlink_sentences Sample.ntp_off Sample.fix_none Sample.clock_2025
  = [ "$GPGGA,000000.00,4700.0000,N,12200.0000,W,1,8,1.0,10.0,M,0.0,M,,*44";
      "$GPRMC,000000.20,A,4700.0000,N,12200.0000,W,0.0,0.0,010125,,*26";
      "$GPVTG,0.0,T,,M,0.0,N,0.0,K,*4C";
      "$GPGLL,4700.0000,N,12200.0000,W,000000.60,A,*3E";
      "$GPGSA,A,3,01,02,03,04,05,06,07,08,09,10,11,12,1.0,1.0,1.0*30";
      "$GPZDA,000001.00,01,01,2025,,,*4E" ]%string
  /\ Udp.generate_nmea_sentences Sample.ntp_off Sample.fix_none (1735689600 # 1) = [].
Proof. vm_compute. split; reflexivity. Qed.

(** ** The fail-over state machine *)

Lemma startswith_iff p : forall s,
  Py.startswith s p = true <-> exists rest, s = (p ++ rest)%string.
Proof.
  induction p as [|a p IH]; intros s; simpl.
  - split; [intros _; exists s; reflexivity | reflexivity].
  - destruct s as [|b s].
    + split; [discriminate | intros [rest H]; discriminate].
    + rewrite andb_true_iff, Ascii.eqb_eq, IH. split.
      * intros [-> [rest ->]]. exists rest. reflexivity.
      * intros [rest H]. injection H as -> ->. split; [reflexivity | exists rest; reflexivity].
Qed.

Lemma recognized_iff_talker_prefix line :
  Fallback.recognized line = true <-> talker_prefix line.
Proof.
  unfold Fallback.recognized, talker_prefix.
  rewrite orb_true_iff, !startswith_iff. split.
  - intros [[rest H] | [rest H]]; exists rest; auto.
  - intros [rest [H | H]]; [left | right]; exists rest; exact H.
Qed.

Lemma not_recognized_iff line :
  Fallback.recognized line = false <-> ~ talker_prefix line.
Proof.
  rewrite <- recognized_iff_talker_prefix.
  destruct (Fallback.recognized line); split; intros; try discriminate; auto.
  exfalso; auto.
Qed.

Lemma switches_app a b :
  Fallback.switches (a ++ b) = (Fallback.switches a + Fallback.switches b)%nat.
Proof.
  unfold Fallback.switches. rewrite filter_app, length_app. reflexivity.
Qed.

Lemma switches_flat_map_write l :
  Fallback.switches (flat_map Fallback.write_sentence l) = 0%nat.
Proof.
  induction l as [|x l IH]; [reflexivity|].
  cbn [flat_map]. rewrite switches_app, IH. reflexivity.
Qed.

Lemma switches_emit ntp i s : Fallback.switches (Fallback.emit ntp i s) = 0%nat.
Proof.
  unfold Fallback.emit. destruct (Fallback.fallback_active s).
  - apply switches_flat_map_write.
  - reflexivity.
Qed.

Lemma switches_on_line line now s :
  Fallback.switches (snd (Fallback.on_line line now s)) = 0%nat.
Proof.
  unfold Fallback.on_line.
  destruct (Fallback.recognized line); [|reflexivity].
  destruct (Fallback.fallback_active s); reflexivity.
Qed.

Lemma gtb_iff x y : Py.gtb x y = true <-> (y < x)%Q.
Proof.
  unfold Py.gtb, Py.ltb. rewrite negb_true_iff. split.
  - intros H. apply Qnot_le_lt. intros Hle.
    apply Qle_bool_iff in Hle. congruence.
  - intros H. destruct (Qle_bool x y) eqn:E; [|reflexivity].
    apply Qle_bool_iff in E. exfalso. apply (Qlt_not_le _ _ H E).
Qed.

(** An unrecognized line leaves the first [if] without effect. *)
Lemma iteration_unrecognized ntp i s :
  ~ talker_prefix (Fallback.line_of i) ->
  Fallback.iteration ntp i s
  = (fst (Fallback.check_lock_loss (Fallback.now i) s),
     snd (Fallback.check_lock_loss (Fallback.now i) s)
       ++ Fallback.emit ntp i (fst (Fallback.check_lock_loss (Fallback.now i) s))).
Proof.
  intros H. apply not_recognized_iff in H.
  unfold Fallback.iteration, Fallback.on_line. rewrite H.
  destruct (Fallback.check_lock_loss (Fallback.now i) s). reflexivity.
Qed.

(** In fallback the lock-loss test is skipped. *)
Lemma check_lock_loss_in_fallback now s :
  Fallback.fallback_active s = true -> Fallback.check_lock_loss now s = (s, []).
Proof.
  intros H. unfold Fallback.check_lock_loss. rewrite H. reflexivity.
Qed.

Lemma check_lock_loss_fires now s :
  Fallback.fallback_active s = false ->
  (Fallback.LOCK_LOSS_THRESHOLD < now - Fallback.last_gps_data_time s)%Q ->
  Fallback.check_lock_loss now s
  = ({| Fallback.last_gps_data_time := Fallback.last_gps_data_time s;
        Fallback.fallback_active := true |}, [Print Fallback.MSG_SWITCH]).
Proof.
  intros H Hlt. unfold Fallback.check_lock_loss. rewrite H.
  apply gtb_iff in Hlt. rewrite Hlt. reflexivity.
Qed.

Lemma check_lock_loss_quiet now s :
  Fallback.fallback_active s = false ->
  ~ (Fallback.LOCK_LOSS_THRESHOLD < now - Fallback.last_gps_data_time s)%Q ->
  Fallback.check_lock_loss now s = (s, []).
Proof.
  intros H Hn. unfold Fallback.check_lock_loss. rewrite H.
  destruct (Py.gtb _ _) eqn:E; [|reflexivity].
  apply gtb_iff in E. contradiction.
Qed.



(** A recognized line: timer stamped, PRIMARY, no switch. *)
Lemma iteration_recognized ntp i s :
  talker_prefix (Fallback.line_of i) ->
  fst (Fallback.iteration ntp i s)
  = {| Fallback.last_gps_data_time := Fallback.now i;
       Fallback.fallback_active := false |}
  /\ Fallback.switches (snd (Fallback.iteration ntp i s)) = 0%nat
  /\ In (PipeWrite (Fallback.line_of i ++ CRLF)) (snd (Fallback.iteration ntp i s)).
Proof.
  intros H. apply recognized_iff_talker_prefix in H.
  unfold Fallback.iteration.
  pose proof (switches_on_line (Fallback.line_of i) (Fallback.now i) s) as Hsw.
  unfold Fallback.on_line in *. rewrite H in *. cbn [snd] in Hsw.
  set (s1 := {| Fallback.last_gps_data_time := Fallback.now i;
                Fallback.fallback_active := false |}).
  assert (Hq : Fallback.check_lock_loss (Fallback.now i) s1 = (s1, [])).
  { apply check_lock_loss_quiet; [reflexivity|].
    cbn [Fallback.last_gps_data_time s1]. unfold Fallback.LOCK_LOSS_THRESHOLD.
    intros Hlt. lra. }
  rewrite Hq. cbn [fst snd]. repeat split.
  - rewrite switches_app, Hsw, switches_app, switches_emit. reflexivity.
  - apply in_or_app. left. apply in_or_app. right. left. reflexivity.
Qed.

(** Every synthesized sentence carries the talker prefix [$GP]. *)
Lemma sentences_start_with_GP ntp pnt clock nmea :
  In nmea (Fallback.get_starlink_sentences ntp pnt clock) ->
  exists rest, nmea = ("$GP" ++ rest)%string.
Proof.
  unfold Fallback.get_starlink_sentences. cbv zeta.
  intros H. cbn [In] in H.
  repeat (destruct H as [<- | H]; [eexists; reflexivity|]).
  contradiction.
Qed.

(** A line that, once terminated, equals a terminated sentence of talker
    [$GP] has that prefix itself. *)
Lemma terminated_line_prefix rest line :
  (("$GP" ++ rest) ++ CRLF)%string = (line ++ CRLF)%string -> talker_prefix line.
Proof.
  intros H. destruct line as [|a [|b [|c r]]]; cbn in H; try discriminate.
  injection H as <- <- <- _. exists r. left. reflexivity.
Qed.

(** An unrecognized line is not written to the pipe. *)
Lemma unrecognized_not_relayed ntp i s :
  ~ talker_prefix (Fallback.line_of i) ->
  ~ In (PipeWrite (Fallback.line_of i ++ CRLF)) (snd (Fallback.iteration ntp i s)).
Proof.
  intros Hn Hin. rewrite (iteration_unrecognized ntp i s Hn) in Hin.
  cbn [snd] in Hin. apply in_app_or in Hin. destruct Hin as [Hin | Hin].
  - unfold Fallback.check_lock_loss in Hin.
    destruct (_ && _) in Hin; cbn in Hin; [destruct Hin as [Hin | []]; discriminate | contradiction].
  - unfold Fallback.emit in Hin.
    destruct (Fallback.fallback_active _) in Hin.
    + apply in_flat_map in Hin. destruct Hin as [nmea [Hs Hw]].
      destruct (sentences_start_with_GP _ _ _ _ Hs) as [rest ->].
      cbn [Fallback.write_sentence In] in Hw.
      destruct Hw as [Hw | [Hw | [Hw | []]]]; try discriminate.
      injection Hw as Hw. apply Hn. exact (terminated_line_prefix _ _ Hw).
    + destruct Hin as [Hin | []]. discriminate.
Qed.

(** A device error puts the controller in FALLBACK at once, without the
    lock-loss message; while it lasts, the reappearance of the device
    path is what gives PRIMARY back. *)
Lemma serial_exception_enters_fallback s :
  Fallback.fallback_active (fst (Fallback.on_serial_exception s)) = true
  /\ Fallback.switches (snd (Fallback.on_serial_exception s)) = 0%nat.
Proof.
  unfold Fallback.on_serial_exception.
  destruct (Fallback.fallback_active s) eqn:E; cbn [fst snd]; auto.
Qed.

Lemma fallback_cycle_follows_device ntp i present s :
  Fallback.fallback_active s = true ->
  Fallback.fallback_active (fst (Fallback.fallback_cycle ntp i present s))
  = negb present
  /\ Fallback.switches (snd (Fallback.fallback_cycle ntp i present s)) = 0%nat.
Proof.
  intros Hf. unfold Fallback.fallback_cycle.
  destruct present; cbn [fst snd Fallback.fallback_active negb].
  - split; [reflexivity|].
    rewrite !switches_app, switches_flat_map_write. reflexivity.
  - split; [exact Hf|].
    rewrite switches_app, switches_flat_map_write. reflexivity.
Qed.


Lemma sample_gps_line :
  Fallback.line_of (Sample.input_gps 0)
  = "$GPGGA,000000.00,4736.0000,N,12218.0000,W,1,8,1.0,10.0,M,0.0,M,,*48"%string.
Proof. reflexivity. Qed.

Lemma sample_gps_recognized t : talker_prefix (Fallback.line_of (Sample.input_gps t)).
Proof.
  change (Fallback.line_of (Sample.input_gps t))
    with (Fallback.line_of (Sample.input_gps 0)).
  rewrite sample_gps_line. eexists. left. reflexivity.
Qed.

Lemma sample_timeout_unrecognized t :
  ~ talker_prefix (Fallback.line_of (Sample.input_timeout t)).
Proof. intros [rest [H | H]]; discriminate H. Qed.


(** C8.  The timer starts at 0, so on the first iteration after the
    serial device is opened, with no recognized line read and a wall
    clock beyond [LOCK_LOSS_THRESHOLD], the controller is in FALLBACK at
    once, whatever time has really passed in silence. *)
Theorem first_iteration_falls_back :
  forall (ntp : Ntp) (i : Fallback.Input),
    ~ talker_prefix (Fallback.line_of i) ->
    (Fallback.LOCK_LOSS_THRESHOLD < Fallback.now i)%Q ->
    Fallback.last_gps_data_time Fallback.initial = 0%Q
    /\ Fallback.fallback_active (fst (Fallback.iteration ntp i Fallback.initial)) = true
    /\ Fallback.switches (snd (Fallback.iteration ntp i Fallback.initial)) = 1%nat.
Proof.
  intros ntp i Hn Hlt. split; [reflexivity|].
  rewrite (iteration_unrecognized ntp i _ Hn).
  rewrite check_lock_loss_fires; [| reflexivity |].
  - cbn [fst snd]. split; [reflexivity|].
    rewrite switches_app, switches_emit. reflexivity.
  - cbn [Fallback.initial Fallback.last_gps_data_time].
    unfold Fallback.LOCK_LOSS_THRESHOLD in *. lra.
Qed.

Lemma first_iteration_falls_back_witness :
  Fallback.last_gps_data_time Fallback.initial = 0%Q
  /\ Fallback.fallback_active
       (fst (Fallback.iteration Sample.ntp_off (Sample.input_timeout 1735689600)
               Fallback.initial)) = true
  /\ Fallback.switches
       (snd (Fallback.iteration Sample.ntp_off (Sample.input_timeout 1735689600)
               Fallback.initial)) = 1%nat.
Proof.
  apply (first_iteration_falls_back Sample.ntp_off (Sample.input_timeout 1735689600)).
  - apply sample_timeout_unrecognized.
  - vm_compute. reflexivity.
Defined.

(** C10.  In one iteration the line read is written to the pipe exactly
    when it begins with [$GP] or [$GN]; such a line stamps the timer and
    leaves the controller in PRIMARY; any other line leaves the timer as
    it was and does not take the controller out of FALLBACK. *)
Theorem talker_prefix_decides_recognition :
  forall (ntp : Ntp) (i : Fallback.Input) (s : Fallback.State),
    let line := Fallback.line_of i in
    let s' := fst (Fallback.iteration ntp i s) in
    let tr := snd (Fallback.iteration ntp i s) in
    (In (PipeWrite (line ++ CRLF)) tr <-> talker_prefix line)
    /\ (talker_prefix line ->
        Fallback.last_gps_data_time s' = Fallback.now i
        /\ Fallback.fallback_active s' = false)
    /\ (~ talker_prefix line ->
        Fallback.last_gps_data_time s' = Fallback.last_gps_data_time s
        /\ (Fallback.fallback_active s = true -> s' = s)).
Proof.
  intros ntp i s line s' tr. subst line s' tr. split; [|split].
  - split.
    + intros Hin.
      destruct (Fallback.recognized (Fallback.line_of i)) eqn:E.
      * apply recognized_iff_talker_prefix. exact E.
      * apply not_recognized_iff in E.
        exfalso. exact (unrecognized_not_relayed ntp i s E Hin).
    + intros H. apply (iteration_recognized ntp i s H).
  - intros H. destruct (iteration_recognized ntp i s H) as (-> & _). split; reflexivity.
  - intros Hn. rewrite (iteration_unrecognized ntp i s Hn). cbn [fst]. split.
    + unfold Fallback.check_lock_loss. destruct (_ && _); reflexivity.
    + intros Hf. rewrite (check_lock_loss_in_fallback _ _ Hf). reflexivity.
Qed.

Lemma talker_prefix_decides_recognition_witness :
  let fb := {| Fallback.last_gps_data_time := 1000;
               Fallback.fallback_active := true |} in
  (Fallback.last_gps_data_time
     (fst (Fallback.iteration Sample.ntp_off (Sample.input_gps 1301) fb)) = 1301%Q
   /\ Fallback.fallback_active
        (fst (Fallback.iteration Sample.ntp_off (Sample.input_gps 1301) fb)) = false)
  /\ Fallback.last_gps_data_time
       (fst (Fallback.iteration Sample.ntp_off (Sample.input_timeout 1301) fb)) = 1000%Q.
Proof.
  intros fb. split.
  - apply (talker_prefix_decides_recognition Sample.ntp_off (Sample.input_gps 1301) fb).
    apply sample_gps_recognized.
  - apply (talker_prefix_decides_recognition Sample.ntp_off (Sample.input_timeout 1301) fb).
    apply sample_timeout_unrecognized.
Defined.

(** ** GNSS week and millisecond of the week *)







(** ** Characters of the formatted fields *)

Lemma all_chars_app p a b :
  all_chars p (a ++ b) = all_chars p a && all_chars p b.
Proof.
  induction a as [|c a IH]; [reflexivity|].
  cbn [append all_chars]. rewrite IH, andb_assoc. reflexivity.
Qed.

Lemma all_chars_impl (p q : ascii -> bool) s :
  (forall c, p c = true -> q c = true) ->
  all_chars p s = true -> all_chars q s = true.
Proof.
  intros Hpq. induction s as [|c s IH]; [reflexivity|].
  cbn [all_chars]. rewrite !andb_true_iff. intros [Hc Hs]. auto.
Qed.

Lemma all_chars_repeat p c n : p c = true -> all_chars p (Py.repeat_char c n) = true.
Proof.
  intros H. induction n as [|n IH]; [reflexivity|].
  cbn [Py.repeat_char all_chars]. rewrite H, IH. reflexivity.
Qed.

Lemma all_chars_substring p s : forall n m,
  all_chars p s = true -> all_chars p (substring n m s) = true.
Proof.
  induction s as [|c s IH]; intros n m H.
  - destruct n, m; reflexivity.
  - cbn [all_chars] in H. apply andb_true_iff in H. destruct H as [Hc Hs].
    destruct n as [|n]; cbn [substring].
    + destruct m as [|m]; [reflexivity|].
      cbn [all_chars]. rewrite Hc. apply IH. exact Hs.
    + apply IH. exact Hs.
Qed.

Lemma uint_digits u : all_chars is_digit (NilEmpty.string_of_uint u) = true.
Proof. induction u; cbn [NilEmpty.string_of_uint all_chars]; auto. Qed.

Lemma digits_are_digits z : all_chars is_digit (Py.digits z) = true.
Proof. apply uint_digits. Qed.

Lemma is_digit_numeric c : is_digit c = true -> numeric_char c = true.
Proof. intros H. unfold numeric_char. rewrite H. reflexivity. Qed.

Lemma zero_pad_numeric width negative body :
  all_chars numeric_char body = true ->
  all_chars numeric_char (Py.zero_pad width negative body) = true.
Proof.
  intros H. unfold Py.zero_pad.
  rewrite !all_chars_app, H, all_chars_repeat by reflexivity.
  destruct negative; reflexivity.
Qed.

Lemma format_d_numeric width z : all_chars numeric_char (Py.format_d width z) = true.
Proof.
  apply zero_pad_numeric.
  apply (all_chars_impl is_digit); [exact is_digit_numeric | apply digits_are_digits].
Qed.

Lemma format_f_numeric width prec x :
  all_chars numeric_char (Py.format_f width prec x) = true.
Proof.
  apply zero_pad_numeric.
  rewrite !all_chars_app, all_chars_repeat by reflexivity.
  rewrite !(all_chars_impl is_digit numeric_char _ is_digit_numeric (digits_are_digits _)).
  reflexivity.
Qed.

Lemma time_str_numeric now : all_chars numeric_char (Nmea.time_str now) = true.
Proof.
  apply all_chars_substring. unfold Datetime.strftime_HMSf.
  rewrite !all_chars_app, !format_d_numeric. reflexivity.
Qed.

Lemma strftime_dmy_numeric now :
  all_chars numeric_char (Datetime.strftime_dmy now) = true.
Proof.
  unfold Datetime.strftime_dmy. rewrite !all_chars_app, !format_d_numeric. reflexivity.
Qed.

Lemma numeric_not_star c : numeric_char c = true -> not_star c = true.
Proof.
  unfold numeric_char, not_star, is_digit.
  destruct (Ascii.eqb c "*") eqn:E; [|reflexivity].
  apply Ascii.eqb_eq in E. subst c. discriminate.
Qed.

Lemma numeric_not_comma c : numeric_char c = true -> not_comma c = true.
Proof.
  unfold numeric_char, not_comma, is_digit.
  destruct (Ascii.eqb c ",") eqn:E; [|reflexivity].
  apply Ascii.eqb_eq in E. subst c. discriminate.
Qed.

(** ** The checksum *)

(** The loop of the scripts computes the exclusive-or of the codes. *)
Lemma xor_fold_xor_bytes s : forall acc,
  Nmea.xor_fold acc s = Z.lxor acc (xor_bytes s).
Proof.
  induction s as [|c s IH]; intros acc; cbn [Nmea.xor_fold xor_bytes].
  - rewrite Z.lxor_0_r. reflexivity.
  - rewrite IH, Z.lxor_assoc. reflexivity.
Qed.

Lemma ord_byte c : 0 <= Py.ord c < 256.
Proof.
  unfold Py.ord. pose proof (N_ascii_bounded c). lia.
Qed.

Lemma lxor_byte a b : 0 <= a < 256 -> 0 <= b < 256 -> 0 <= Z.lxor a b < 256.
Proof.
  intros Ha Hb.
  assert (H0 : 0 <= Z.lxor a b) by (apply Z.lxor_nonneg; lia).
  split; [exact H0|].
  destruct (Z.eq_dec (Z.lxor a b) 0) as [-> | Hne]; [lia|].
  change 256 with (2 ^ 8). apply Z.log2_lt_pow2; [lia|].
  pose proof (Z.log2_lxor a b ltac:(lia) ltac:(lia)) as Hl.
  assert (La : Z.log2 a < 8).
  { destruct (Z.eq_dec a 0) as [-> | ?]; [cbn; lia|].
    apply Z.log2_lt_pow2; [lia | change (2 ^ 8) with 256; lia]. }
  assert (Lb : Z.log2 b < 8).
  { destruct (Z.eq_dec b 0) as [-> | ?]; [cbn; lia|].
    apply Z.log2_lt_pow2; [lia | change (2 ^ 8) with 256; lia]. }
  lia.
Qed.

Lemma xor_bytes_byte s : 0 <= xor_bytes s < 256.
Proof.
  induction s as [|c s IH]; cbn [xor_bytes]; [lia|].
  apply lxor_byte; [apply ord_byte | exact IH].
Qed.

Lemma hex_round_trip_bytes :
  forallb (fun n => hex_round_trip (Z.of_nat n)) (seq 0 256) = true.
Proof. vm_compute. reflexivity. Qed.

Lemma hex_round_trip_byte v : 0 <= v < 256 -> hex_round_trip v = true.
Proof.
  intros Hv.
  pose proof (proj1 (forallb_forall _ _) hex_round_trip_bytes (Z.to_nat v)) as H.
  cbv beta in H. rewrite Z2Nat.id in H by lia.
  apply H. apply in_seq. lia.
Qed.

Lemma split_at_star_app payload rest :
  all_chars not_star payload = true ->
  split_at_star (payload ++ String "*" rest) = Some (payload, rest).
Proof.
  induction payload as [|c p IH]; intros H; [reflexivity|].
  cbn [all_chars] in H. apply andb_true_iff in H. destruct H as [Hc Hp].
  cbn [append split_at_star].
  unfold not_star in Hc. apply negb_true_iff in Hc. rewrite Hc, (IH Hp).
  reflexivity.
Qed.

(** A body without [*] after its [$], once the checksum is appended,
    passes the receiver's check. *)
Lemma with_checksum_valid payload :
  all_chars not_star payload = true ->
  checksum_valid (Nmea.with_checksum (String "$" payload)) = true.
Proof.
  intros H. unfold Nmea.with_checksum, Nmea.calculate_checksum.
  cbn [Py.drop append checksum_valid].
  change (Ascii.eqb "$" "$") with true. cbv iota.
  rewrite (split_at_star_app _ _ H).
  rewrite xor_fold_xor_bytes, Z.lxor_0_l.
  pose proof (hex_round_trip_byte _ (xor_bytes_byte payload)) as Hr.
  unfold hex_round_trip in Hr.
  destruct (Py.format_X 2 (xor_bytes payload)) as [|h [|l [|? ?]]]; try discriminate.
  exact Hr.
Qed.

Lemma all_chars_cons p c r : all_chars p (String c r) = p c && all_chars p r.
Proof. reflexivity. Qed.

Lemma numeric_star_free s : all_chars numeric_char s = true -> all_chars not_star s = true.
Proof. apply all_chars_impl. exact numeric_not_star. Qed.

Lemma time_str_star_free now : all_chars not_star (Nmea.time_str now) = true.
Proof. apply numeric_star_free, time_str_numeric. Qed.

Lemma strftime_dmy_star_free now : all_chars not_star (Datetime.strftime_dmy now) = true.
Proof. apply numeric_star_free, strftime_dmy_numeric. Qed.

Lemma format_d_star_free width z : all_chars not_star (Py.format_d width z) = true.
Proof. apply numeric_star_free, format_d_numeric. Qed.

Lemma str_star_free z : all_chars not_star (Py.str z) = true.
Proof. apply format_d_star_free. Qed.

Lemma format_f_star_free width prec x :
  all_chars not_star (Py.format_f width prec x) = true.
Proof. apply numeric_star_free, format_f_numeric. Qed.

Lemma status_star_free b : all_chars not_star (Nmea.status b) = true.
Proof. destruct b; reflexivity. Qed.

Lemma nmea_lat_star_free x : all_chars not_star (Nmea.nmea_lat x) = true.
Proof.
  unfold Nmea.nmea_lat.
  rewrite !all_chars_app, format_d_star_free, format_f_star_free.
  destruct (Py.geb x 0); reflexivity.
Qed.

Lemma nmea_lon_star_free x : all_chars not_star (Nmea.nmea_lon x) = true.
Proof.
  unfold Nmea.nmea_lon.
  rewrite !all_chars_app, format_d_star_free, format_f_star_free.
  destruct (Py.geb x 0); reflexivity.
Qed.

(** Splits the test over a body and settles each of its pieces. *)
Ltac star_free :=
  cbn [append];
  repeat rewrite ?all_chars_app, ?all_chars_cons;
  rewrite ?time_str_star_free, ?strftime_dmy_star_free, ?format_d_star_free,
    ?str_star_free, ?format_f_star_free, ?status_star_free,
    ?nmea_lat_star_free, ?nmea_lon_star_free;
  reflexivity.

Lemma gga_valid ts la lo q sats acc al :
  checksum_valid
    (Nmea.with_checksum
       (Nmea.gga (Nmea.time_str ts) (Nmea.nmea_lat la) (Nmea.nmea_lon lo) q sats acc al))
  = true.
Proof. unfold Nmea.gga. cbn [append]. apply with_checksum_valid. star_free. Qed.

Lemma rmc_valid ts v la lo d :
  checksum_valid
    (Nmea.with_checksum
       (Nmea.rmc (Nmea.time_str ts) v (Nmea.nmea_lat la) (Nmea.nmea_lon lo)
          (Datetime.strftime_dmy d)))
  = true.
Proof. unfold Nmea.rmc. cbn [append]. apply with_checksum_valid. star_free. Qed.

Lemma vtg_valid : checksum_valid (Nmea.with_checksum Nmea.vtg) = true.
Proof. reflexivity. Qed.

Lemma gll_valid la lo ts v :
  checksum_valid
    (Nmea.with_checksum
       (Nmea.gll (Nmea.nmea_lat la) (Nmea.nmea_lon lo) (Nmea.time_str ts) v))
  = true.
Proof. unfold Nmea.gll. cbn [append]. apply with_checksum_valid. star_free. Qed.

Lemma gsa_valid acc : checksum_valid (Nmea.with_checksum (Nmea.gsa acc)) = true.
Proof. unfold Nmea.gsa. cbn [append]. apply with_checksum_valid. star_free. Qed.

Lemma zda_valid ts now :
  checksum_valid (Nmea.with_checksum (Nmea.zda (Nmea.time_str ts) now)) = true.
Proof. unfold Nmea.zda. cbn [append]. apply with_checksum_valid. star_free. Qed.

(** C2.  Every sentence of a batch, of the fallback bridge and of the UDP
    bridge alike, passes the receiver's check: the two characters after
    its [*] are uppercase hexadecimal digits whose value is the
    exclusive-or of the characters between the leading [$] and the [*]. *)
Theorem emitted_sentences_checksum_valid :
  forall (ntp : Ntp) (pnt : Pnt) (clock : nat -> Q) (time_time : Q),
    Forall (fun s => checksum_valid s = true)
      (Fallback.get_starlink_sentences ntp pnt clock)
    /\ Forall (fun s => checksum_valid s = true)
         (Udp.generate_nmea_sentences ntp pnt time_time).
Proof.
  intros ntp pnt clock time_time. split.
  - unfold Fallback.get_starlink_sentences. cbv zeta.
    repeat constructor;
      auto using gga_valid, rmc_valid, vtg_valid, gll_valid, gsa_valid, zda_valid.
  - unfold Udp.generate_nmea_sentences. cbv zeta.
    destruct (_ && _); [constructor|].
    repeat constructor;
      auto using gga_valid, rmc_valid, vtg_valid, gll_valid, gsa_valid.
Qed.

(** ** Kinds and fields of the sentences *)

Lemma append_assoc (a b c : string) : ((a ++ b) ++ c = a ++ (b ++ c))%string.
Proof.
  induction a as [|x a IH]; [reflexivity|].
  cbn [append]. rewrite IH. reflexivity.
Qed.

Lemma kind_gga ts la lo q sats acc al :
  kind_of (Nmea.with_checksum (Nmea.gga ts la lo q sats acc al)) = Some GGA.
Proof. reflexivity. Qed.

Lemma kind_rmc ts v la lo d :
  kind_of (Nmea.with_checksum (Nmea.rmc ts v la lo d)) = Some RMC.
Proof. reflexivity. Qed.

Lemma kind_vtg : kind_of (Nmea.with_checksum Nmea.vtg) = Some VTG.
Proof. reflexivity. Qed.

Lemma kind_gll la lo ts v :
  kind_of (Nmea.with_checksum (Nmea.gll la lo ts v)) = Some GLL.
Proof. reflexivity. Qed.

Lemma kind_gsa acc : kind_of (Nmea.with_checksum (Nmea.gsa acc)) = Some GSA.
Proof. reflexivity. Qed.

Lemma kind_zda ts now : kind_of (Nmea.with_checksum (Nmea.zda ts now)) = Some ZDA.
Proof. reflexivity. Qed.

(** C7, as the scripts build the batches.  The fallback bridge emits one
    sentence of each of the six kinds, in the order GGA, RMC, VTG, GLL,
    GSA, ZDA; a batch of the UDP bridge is empty or holds the five kinds
    GGA, RMC, VTG, GLL, GSA in that order, without ZDA. *)
Theorem batch_kinds_in_order :
  forall (ntp : Ntp) (pnt : Pnt) (clock : nat -> Q) (time_time : Q),
    map kind_of (Fallback.get_starlink_sentences ntp pnt clock)
    = [Some GGA; Some RMC; Some VTG; Some GLL; Some GSA; Some ZDA]
    /\ (Udp.generate_nmea_sentences ntp pnt time_time = []
        \/ map kind_of (Udp.generate_nmea_sentences ntp pnt time_time)
           = [Some GGA; Some RMC; Some VTG; Some GLL; Some GSA]).
Proof.
  intros ntp pnt clock time_time. split.
  - unfold Fallback.get_starlink_sentences. cbv zeta. cbn [map].
    rewrite kind_gga, kind_rmc, kind_vtg, kind_gll, kind_gsa, kind_zda.
    reflexivity.
  - unfold Udp.generate_nmea_sentences. cbv zeta.
    destruct (_ && _); [left; reflexivity | right].
    cbn [map]. rewrite kind_gga, kind_rmc, kind_vtg, kind_gll, kind_gsa.
    reflexivity.
Qed.

(** C7, as stated, fails on the UDP bridge: the batch of the scenario fix
    is not empty and has five sentences, none of them ZDA. *)
Lemma udp_batch_has_no_zda :
  let batch :=
    Udp.generate_nmea_sentences Sample.ntp_off Sample.fix_seattle (1735689600 # 1) in
  batch <> []
  /\ map kind_of batch = [Some GGA; Some RMC; Some VTG; Some GLL; Some GSA]
  /\ map kind_of batch <> [Some GGA; Some RMC; Some VTG; Some GLL; Some GSA; Some ZDA]
  /\ ~ In (Some ZDA) (map kind_of batch).
Proof.
  vm_compute. repeat split; try discriminate.
  intros H. repeat (destruct H as [H | H]; [discriminate|]). exact H.
Qed.

Lemma field_skip a r n :
  all_chars not_comma a = true -> field (S n) (a ++ String "," r) = field n r.
Proof.
  induction a as [|c a IH]; intros H; [reflexivity|].
  cbn [all_chars] in H. apply andb_true_iff in H. destruct H as [Hc Ha].
  cbn [append field]. unfold not_comma in Hc. apply negb_true_iff in Hc.
  rewrite Hc. exact (IH Ha).
Qed.

Lemma field_take a r :
  all_chars not_comma a = true -> field 0 (a ++ String "," r) = a.
Proof.
  induction a as [|c a IH]; intros H; [reflexivity|].
  cbn [all_chars] in H. apply andb_true_iff in H. destruct H as [Hc Ha].
  cbn [append field]. unfold not_comma in Hc. apply negb_true_iff in Hc.
  rewrite Hc, (IH Ha). reflexivity.
Qed.

Lemma numeric_comma_free s :
  all_chars numeric_char s = true -> all_chars not_comma s = true.
Proof. apply all_chars_impl. exact numeric_not_comma. Qed.

Lemma field_skip_time now r n :
  field (S n) (Nmea.time_str now ++ String "," r) = field n r.
Proof. apply field_skip, numeric_comma_free, time_str_numeric. Qed.

(** A coordinate takes two fields: the digits and the hemisphere. *)
Lemma field_skip_lat x r n :
  field (S (S n)) (Nmea.nmea_lat x ++ String "," r) = field n r.
Proof.
  unfold Nmea.nmea_lat. cbv zeta.
  rewrite !append_assoc. cbn [append].
  rewrite <- append_assoc, field_skip.
  - destruct (Py.geb x 0); reflexivity.
  - rewrite all_chars_app. apply andb_true_iff. split; apply numeric_comma_free;
      [apply format_d_numeric | apply format_f_numeric].
Qed.

Lemma field_skip_lon x r n :
  field (S (S n)) (Nmea.nmea_lon x ++ String "," r) = field n r.
Proof.
  unfold Nmea.nmea_lon. cbv zeta.
  rewrite !append_assoc. cbn [append].
  rewrite <- append_assoc, field_skip.
  - destruct (Py.geb x 0); reflexivity.
  - rewrite all_chars_app. apply andb_true_iff. split; apply numeric_comma_free;
      [apply format_d_numeric | apply format_f_numeric].
Qed.

(** The fix-quality field of GGA. *)
Lemma gga_quality ts la lo q sats acc al :
  field 6 (Nmea.with_checksum
             (Nmea.gga (Nmea.time_str ts) (Nmea.nmea_lat la) (Nmea.nmea_lon lo)
                q sats acc al))
  = Py.str q.
Proof.
  unfold Nmea.with_checksum, Nmea.gga.
  rewrite !append_assoc. cbn [append].
  change (field 6 (String "$" (String "G" (String "P" (String "G" (String "G"
            (String "A" (String "," ?x))))))))
    with (field 5 x).
  rewrite field_skip_time, field_skip_lat, field_skip_lon.
  apply field_take, numeric_comma_free, format_d_numeric.
Qed.

(** The status field of RMC. *)
Lemma rmc_status ts v la lo d :
  field 2 (Nmea.with_checksum (Nmea.rmc (Nmea.time_str ts) v la lo d))
  = Nmea.status v.
Proof.
  unfold Nmea.with_checksum, Nmea.rmc.
  rewrite !append_assoc. cbn [append].
  change (field 2 (String "$" (String "G" (String "P" (String "R" (String "M"
            (String "C" (String "," ?x))))))))
    with (field 1 x).
  rewrite field_skip_time.
  apply field_take. destruct v; reflexivity.
Qed.

(** The status field of GLL. *)
Lemma gll_status la lo ts v :
  field 6 (Nmea.with_checksum
             (Nmea.gll (Nmea.nmea_lat la) (Nmea.nmea_lon lo) (Nmea.time_str ts) v))
  = Nmea.status v.
Proof.
  unfold Nmea.with_checksum, Nmea.gll.
  rewrite !append_assoc. cbn [append].
  change (field 6 (String "$" (String "G" (String "P" (String "G" (String "L"
            (String "L" (String "," ?x))))))))
    with (field 5 x).
  rewrite field_skip_lat, field_skip_lon, field_skip_time.
  apply field_take. destruct v; reflexivity.
Qed.

(** ** The validity flag *)

(** C5, as the scripts treat an absent validity flag.  The UDP bridge
    takes it as false: a batch, when there is one, has fix quality 0 in
    GGA and status V in RMC and GLL.  The MAVLink injection sends fix
    type 0.  The fallback bridge takes it as true: fix quality 1 and
    status A. *)
Theorem absent_validity_per_variant :
  forall (ntp : Ntp) (pnt : Pnt) (clock : nat -> Q) (time_time : Q)
         (link : Mavlink.Link),
    gps_valid pnt = None ->
    (Udp.generate_nmea_sentences ntp pnt time_time = []
     \/ exists gga rmc vtg gll gsa,
          Udp.generate_nmea_sentences ntp pnt time_time = [gga; rmc; vtg; gll; gsa]
          /\ field 6 gga = "0"%string
          /\ field 2 rmc = "V"%string
          /\ field 6 gll = "V"%string)
    /\ (Mavlink.send_gps_input ntp time_time pnt link = (false, link)
        \/ exists msg,
             Mavlink.send_gps_input ntp time_time pnt link
             = (true, {| Mavlink.sent := Mavlink.sent link ++ [msg];
                         Mavlink.total_sent := Mavlink.total_sent link + 1 |})
             /\ Mavlink.fix_type msg = 0)
    /\ (exists gga rmc vtg gll gsa zda,
          Fallback.get_starlink_sentences ntp pnt clock = [gga; rmc; vtg; gll; gsa; zda]
          /\ field 6 gga = "1"%string
          /\ field 2 rmc = "A"%string
          /\ field 6 gll = "A"%string).
Proof.
  intros ntp pnt clock time_time link Hv. split; [|split].
  - unfold Udp.generate_nmea_sentences. cbv zeta. rewrite Hv.
    destruct (_ && _); [left; reflexivity | right].
    do 5 eexists. split; [reflexivity|].
    rewrite gga_quality, rmc_status, gll_status. cbn [or_default Nmea.status].
    repeat split; reflexivity.
  - unfold Mavlink.send_gps_input.
    destruct (lat pnt) as [la|]; [|left; reflexivity].
    destruct (lon pnt) as [lo|]; [|left; reflexivity].
    right. destruct (Mavlink.gps_time _) as [week ms].
    eexists. split; [reflexivity|]. cbn [Mavlink.fix_type]. rewrite Hv. reflexivity.
  - unfold Fallback.get_starlink_sentences. cbv zeta. rewrite Hv.
    do 6 eexists. split; [reflexivity|].
    rewrite gga_quality, rmc_status, gll_status. cbn [or_default Nmea.status].
    repeat split; reflexivity.
Qed.

Lemma absent_validity_per_variant_witness :
  exists gga rmc vtg gll gsa zda,
    Fallback.get_starlink_sentences Sample.ntp_off Sample.fix_no_status Sample.clock_2025
    = [gga; rmc; vtg; gll; gsa; zda]
    /\ field 6 gga = "1"%string
    /\ field 2 rmc = "A"%string
    /\ field 6 gll = "A"%string.
Proof.
  apply (absent_validity_per_variant Sample.ntp_off Sample.fix_no_status
           Sample.clock_2025 (1735689600 # 1) Sample.link_fresh).
  reflexivity.
Defined.

(** C5, as stated, fails on the fallback bridge: a fix without validity
    flag is reported with fix quality 1 and status A. *)
Lemma fallback_absent_validity_counts_as_valid :
  gps_valid Sample.fix_no_status = None
  /\ Fallback.get_starlink_sentences Sample.ntp_off Sample.fix_no_status Sample.clock_2025
     = [ "$GPGGA,000000.00,4736.0000,N,12218.0000,W,1,8,1.0,10.0,M,0.0,M,,*48";
         "$GPRMC,000000.20,A,4736.0000,N,12218.0000,W,0.0,0.0,010125,,*2A";
         "$GPVTG,0.0,T,,M,0.0,N,0.0,K,*4C";
         "$GPGLL,4736.0000,N,12218.0000,W,000000.60,A,*32";
         "$GPGSA,A,3,01,02,03,04,05,06,07,08,09,10,11,12,1.0,1.0,1.0*30";
         "$GPZDA,000001.00,01,01,2025,,,*4E" ]%string
  /\ field 6 (nth 0 (Fallback.get_starlink_sentences Sample.ntp_off
                       Sample.fix_no_status Sample.clock_2025) EmptyString)
     <> "0"%string
  /\ field 2 (nth 1 (Fallback.get_starlink_sentences Sample.ntp_off
                       Sample.fix_no_status Sample.clock_2025) EmptyString)
     <> "V"%string.
Proof. vm_compute. repeat split; try reflexivity; discriminate. Qed.

(** ** The empty batch of the UDP bridge *)

Lemma udp_batch_empty_iff ntp pnt time_time :
  Udp.generate_nmea_sentences ntp pnt time_time = []
  <-> (or_default (lat pnt) 0%Q == 0 /\ or_default (lon pnt) 0%Q == 0)%Q.
Proof.
  unfold Udp.generate_nmea_sentences. cbv zeta. unfold Py.eqb.
  destruct (Qeq_bool (or_default (lat pnt) 0%Q) 0) eqn:Ela;
    destruct (Qeq_bool (or_default (lon pnt) 0%Q) 0) eqn:Elo; cbn [andb].
  - apply Qeq_bool_eq in Ela, Elo. tauto.
  - apply Qeq_bool_neq in Elo. split; [discriminate | tauto].
  - apply Qeq_bool_neq in Ela. split; [discriminate | tauto].
  - apply Qeq_bool_neq in Ela. split; [discriminate | tauto].
Qed.

Lemma udp_batch_full ntp pnt time_time :
  Udp.generate_nmea_sentences ntp pnt time_time <> [] ->
  List.length (Udp.generate_nmea_sentences ntp pnt time_time) = 5%nat.
Proof.
  unfold Udp.generate_nmea_sentences. cbv zeta.
  destruct (_ && _); [congruence | reflexivity].
Qed.

(** C9, as the script decides it.  With 0.0 in the place of an absent
    coordinate, the batch is empty exactly when both coordinates are 0.0:
    a genuine fix at (0, 0) is dropped, and a fix that lacks one
    coordinate and whose other coordinate is not 0.0 gives the full batch
    of five sentences, the one of the same fix with 0.0 for the missing
    coordinate. *)
Theorem udp_empty_batch_iff_origin :
  forall (ntp : Ntp) (pnt : Pnt) (time_time : Q),
    let batch := Udp.generate_nmea_sentences ntp pnt time_time in
    (batch = [] <-> (or_default (lat pnt) 0%Q == 0 /\ or_default (lon pnt) 0%Q == 0)%Q)
    /\ (forall la lo, lat pnt = Some la -> lon pnt = Some lo ->
        (la == 0)%Q -> (lo == 0)%Q -> batch = [])
    /\ (forall lo, lat pnt = None -> lon pnt = Some lo -> ~ (lo == 0)%Q ->
        List.length batch = 5%nat
        /\ batch = Udp.generate_nmea_sentences ntp (with_lat pnt (Some 0%Q)) time_time)
    /\ (forall la, lat pnt = Some la -> lon pnt = None -> ~ (la == 0)%Q ->
        List.length batch = 5%nat
        /\ batch = Udp.generate_nmea_sentences ntp (with_lon pnt (Some 0%Q)) time_time).
Proof.
  intros ntp pnt time_time batch. subst batch.
  split; [apply udp_batch_empty_iff|]. split; [|split].
  - intros la lo Hla Hlo Za Zo. apply udp_batch_empty_iff.
    rewrite Hla, Hlo. cbn [or_default]. split; assumption.
  - intros lo Hla Hlo Hnz. split.
    + apply udp_batch_full. rewrite udp_batch_empty_iff, Hlo. cbn [or_default]. tauto.
    + unfold Udp.generate_nmea_sentences, with_lat. cbn [lat lon alt gps_sats gps_valid].
      rewrite Hla. reflexivity.
  - intros la Hla Hlo Hnz. split.
    + apply udp_batch_full. rewrite udp_batch_empty_iff, Hla. cbn [or_default]. tauto.
    + unfold Udp.generate_nmea_sentences, with_lon. cbn [lat lon alt gps_sats gps_valid].
      rewrite Hlo. reflexivity.
Qed.

Lemma udp_empty_batch_iff_origin_witness :
  Udp.generate_nmea_sentences Sample.ntp_off Sample.fix_origin (1735689600 # 1) = []
  /\ List.length
       (Udp.generate_nmea_sentences Sample.ntp_off Sample.fix_no_lat (1735689600 # 1))
     = 5%nat.
Proof.
  split.
  - destruct (udp_empty_batch_iff_origin Sample.ntp_off Sample.fix_origin
                (1735689600 # 1)) as (_ & H & _).
    apply (H 0%Q 0%Q); reflexivity.
  - destruct (udp_empty_batch_iff_origin Sample.ntp_off Sample.fix_no_lat
                (1735689600 # 1)) as (_ & _ & H & _).
    apply (H (- (1223 # 10))%Q); try reflexivity.
    vm_compute. discriminate.
Defined.

(** C9, as stated, fails for a fix that lacks one coordinate and has 0.0
    for the other: nothing is emitted for a fix on the prime meridian
    without latitude. *)
Lemma udp_one_missing_coordinate_dropped :
  lat Sample.fix_meridian_no_lat = None
  /\ lon Sample.fix_meridian_no_lat = Some 0%Q
  /\ Udp.generate_nmea_sentences Sample.ntp_off Sample.fix_meridian_no_lat
       (1735689600 # 1) = [].
Proof. repeat split; reflexivity. Qed.

(** ** The injection message *)



(** ** The rate limit of the NTP synchronisation *)

Lemma ltb_iff x y : Py.ltb x y = true <-> (x < y)%Q.
Proof. exact (gtb_iff y x). Qed.

Section RateLimit.

Variables parse_sntp parse_ntpdate parse_offset : string -> option Q.

(** A call less than [NTP_UPDATE_INTERVAL] after [ntp_last_sync] does
    nothing. *)
Lemma udp_sync_within_interval env t ntp :
  (t - ntp_last_sync ntp < NTP_UPDATE_INTERVAL)%Q ->
  Udp.sync_ntp_time parse_sntp parse_ntpdate env t ntp = (ntp, ntp_available ntp, []).
Proof.
  intros H. apply ltb_iff in H. unfold Udp.sync_ntp_time. rewrite H. reflexivity.
Qed.

Lemma mavlink_sync_within_interval env t ntp :
  (t - ntp_last_sync ntp < NTP_UPDATE_INTERVAL)%Q ->
  Mavlink.sync_ntp_time parse_offset env t ntp = (ntp, ntp_available ntp, []).
Proof.
  intros H. apply ltb_iff in H. unfold Mavlink.sync_ntp_time. rewrite H. reflexivity.
Qed.

(** A call that reached outside and returned [True] has stamped
    [ntp_last_sync] with its own time. *)
Lemma udp_sync_success env t ntp :
  snd (Udp.sync_ntp_time parse_sntp parse_ntpdate env t ntp) <> [] ->
  snd (fst (Udp.sync_ntp_time parse_sntp parse_ntpdate env t ntp)) = true ->
  ntp_last_sync (fst (fst (Udp.sync_ntp_time parse_sntp parse_ntpdate env t ntp))) = t
  /\ ntp_available (fst (fst (Udp.sync_ntp_time parse_sntp parse_ntpdate env t ntp)))
     = true.
Proof.
  unfold Udp.sync_ntp_time.
  destruct (Py.ltb _ _); [cbn; congruence|].
  destruct (probe env); cbn [negb]; [|cbn; congruence].
  destruct (first_tool env) as [rc out | | |]; try (cbn; congruence).
  - destruct (if usable_output rc out then parse_sntp out else None);
      cbn; [auto | congruence].
  - destruct (second_tool env) as [rc out | | |]; try (cbn; congruence).
    destruct (if usable_output rc out then parse_ntpdate out else None);
      cbn; [auto | congruence].
Qed.

Lemma mavlink_sync_success env t ntp :
  snd (Mavlink.sync_ntp_time parse_offset env t ntp) <> [] ->
  snd (fst (Mavlink.sync_ntp_time parse_offset env t ntp)) = true ->
  ntp_last_sync (fst (fst (Mavlink.sync_ntp_time parse_offset env t ntp))) = t
  /\ ntp_available (fst (fst (Mavlink.sync_ntp_time parse_offset env t ntp))) = true.
Proof.
  unfold Mavlink.sync_ntp_time.
  destruct (Py.ltb _ _); [cbn; congruence|].
  destruct (probe env); cbn [negb]; [|cbn; congruence].
  destruct (Mavlink.try_tool parse_offset (first_tool env)); [cbn; auto|].
  destruct (Mavlink.try_tool parse_offset (second_tool env)); cbn; [auto | congruence].
Qed.

End RateLimit.

(** C6, as the scripts limit the rate.  After a call of [sync_ntp_time]
    that reached the time source and succeeded at [t1], a call at [t2]
    with [t2 - t1 < NTP_UPDATE_INTERVAL] makes no external call, returns
    [True] and leaves the three NTP globals, the offset among them, as
    they were; this holds in the UDP bridge and in the MAVLink
    injection. *)
Theorem sync_skipped_after_success :
  forall (parse_sntp parse_ntpdate parse_offset : string -> option Q)
         (env1 env2 : NtpEnv) (t1 t2 : Q) (ntp : Ntp),
    (t2 - t1 < NTP_UPDATE_INTERVAL)%Q ->
    let u1 := Udp.sync_ntp_time parse_sntp parse_ntpdate env1 t1 ntp in
    let m1 := Mavlink.sync_ntp_time parse_offset env1 t1 ntp in
    (snd u1 <> [] -> snd (fst u1) = true ->
     Udp.sync_ntp_time parse_sntp parse_ntpdate env2 t2 (fst (fst u1))
     = (fst (fst u1), true, []))
    /\ (snd m1 <> [] -> snd (fst m1) = true ->
        Mavlink.sync_ntp_time parse_offset env2 t2 (fst (fst m1))
        = (fst (fst m1), true, [])).
Proof.
  intros parse_sntp parse_ntpdate parse_offset env1 env2 t1 t2 ntp Hlt u1 m1.
  split; intros Hcalls Hok.
  - destruct (udp_sync_success parse_sntp parse_ntpdate env1 t1 ntp Hcalls Hok)
      as [Hlast Hav].
    fold u1 in Hlast, Hav.
    rewrite udp_sync_within_interval by (rewrite Hlast; exact Hlt).
    rewrite Hav. reflexivity.
  - destruct (mavlink_sync_success parse_offset env1 t1 ntp Hcalls Hok)
      as [Hlast Hav].
    fold m1 in Hlast, Hav.
    rewrite mavlink_sync_within_interval by (rewrite Hlast; exact Hlt).
    rewrite Hav. reflexivity.
Qed.

Lemma sync_skipped_after_success_witness :
  let u1 := Udp.sync_ntp_time Sample.parse_first_word Sample.parse_ntpdate
              Sample.env_ok_first_word (1735689600 # 1) Sample.ntp_initial in
  snd u1 = [CallProbe; CallTool "sntp"]
  /\ ntp_offset (fst (fst u1)) = 1 # 2
  /\ Udp.sync_ntp_time Sample.parse_first_word Sample.parse_ntpdate
       Sample.env_timeout (1735689630 # 1) (fst (fst u1))
     = (fst (fst u1), true, []).
Proof.
  intros u1. split; [reflexivity|]. split; [reflexivity|].
  destruct (sync_skipped_after_success Sample.parse_first_word Sample.parse_ntpdate
              Sample.parse_offset Sample.env_ok_first_word Sample.env_timeout
              (1735689600 # 1) (1735689630 # 1) Sample.ntp_initial) as [H _].
  - vm_compute. reflexivity.
  - apply H; [discriminate | reflexivity].
Defined.

(** C6, as stated, fails after a synchronisation that did not succeed:
    the first call probes the time source and its query times out, and
    the call one second later reaches outside again and changes the
    offset.  It is so in the UDP bridge and in the MAVLink injection. *)
Lemma sync_repeated_after_failure :
  let u1 := Udp.sync_ntp_time Sample.parse_first_word Sample.parse_ntpdate
              Sample.env_timeout (1735689600 # 1) Sample.ntp_initial in
  let u2 := Udp.sync_ntp_time Sample.parse_first_word Sample.parse_ntpdate
              Sample.env_ok_first_word (1735689601 # 1) (fst (fst u1)) in
  let m1 := Mavlink.sync_ntp_time Sample.parse_offset Sample.env_timeout
              (1735689600 # 1) Sample.ntp_initial in
  let m2 := Mavlink.sync_ntp_time Sample.parse_offset Sample.env_ok
              (1735689601 # 1) (fst (fst m1)) in
  (snd u1 = [CallProbe; CallTool "sntp"]
   /\ snd u2 = [CallProbe; CallTool "sntp"]
   /\ ntp_offset (fst (fst u1)) = 0%Q
   /\ ntp_offset (fst (fst u2)) = 1 # 2)
  /\ (snd m1 = [CallProbe; CallTool "sntp"; CallTool "ntpdig"]
      /\ snd m2 = [CallProbe; CallTool "sntp"]
      /\ ntp_offset (fst (fst m1)) = 0%Q
      /\ ntp_offset (fst (fst m2)) = 1 # 2).
Proof. vm_compute. repeat split; reflexivity. Qed.

(** * Further properties of the scripts *)

(** ** The query of the terminal *)

(** Each query fills its own fields from its own document, whatever
    became of the other one: with [getLocation.lla] a dictionary the
    position is read from it, absent keys giving [None], and likewise the
    status from [dishGetStatus.gpsStats]. *)
Theorem pnt_fields_from_own_document :
  forall (doc gl lla sdoc st gs : list (string * Starlink.json))
         (other_loc other_stat : option Starlink.json),
    Starlink.dict_get doc "getLocation" = Some (Starlink.JDict gl) ->
    Starlink.dict_get gl "lla" = Some (Starlink.JDict lla) ->
    Starlink.dict_get sdoc "dishGetStatus" = Some (Starlink.JDict st) ->
    Starlink.dict_get st "gpsStats" = Some (Starlink.JDict gs) ->
    let with_loc := Starlink.get_starlink_pnt (Some (Starlink.JDict doc)) other_stat in
    let with_stat := Starlink.get_starlink_pnt other_loc (Some (Starlink.JDict sdoc)) in
    Starlink.raw_lat with_loc = or_default (Starlink.dict_get lla "lat") Starlink.JNull
    /\ Starlink.raw_lon with_loc = or_default (Starlink.dict_get lla "lon") Starlink.JNull
    /\ Starlink.raw_alt with_loc = or_default (Starlink.dict_get lla "alt") Starlink.JNull
    /\ Starlink.raw_gps_sats with_stat
       = or_default (Starlink.dict_get gs "gpsSats") Starlink.JNull
    /\ Starlink.raw_gps_valid with_stat
       = or_default (Starlink.dict_get gs "gpsValid") Starlink.JNull.
Proof.
  intros doc gl lla sdoc st gs other_loc other_stat Hgl Hlla Hst Hgs with_loc with_stat.
  subst with_loc with_stat. unfold Starlink.get_starlink_pnt.
  assert (Hl : Starlink.location_fields (Some (Starlink.JDict doc))
               = (or_default (Starlink.dict_get lla "lat") Starlink.JNull,
                  or_default (Starlink.dict_get lla "lon") Starlink.JNull,
                  or_default (Starlink.dict_get lla "alt") Starlink.JNull)).
  { unfold Starlink.location_fields, Starlink.get_or_empty.
    rewrite Hgl. cbn [or_default]. rewrite Hlla. reflexivity. }
  assert (Hs : Starlink.status_fields (Some (Starlink.JDict sdoc))
               = (or_default (Starlink.dict_get gs "gpsSats") Starlink.JNull,
                  or_default (Starlink.dict_get gs "gpsValid") Starlink.JNull)).
  { unfold Starlink.status_fields, Starlink.get_or_empty.
    rewrite Hst. cbn [or_default]. rewrite Hgs. reflexivity. }
  rewrite Hl, Hs.
  destruct (Starlink.status_fields other_stat) as [s0 v0].
  destruct (Starlink.location_fields other_loc) as [[a0 b0] c0].
  cbn. repeat split; reflexivity.
Qed.

Lemma pnt_fields_from_own_document_witness :
  let r := Starlink.get_starlink_pnt (Some Sample.location_doc) None in
  let r' := Starlink.get_starlink_pnt None (Some Sample.status_doc) in
  Starlink.raw_lat r = Starlink.JFloat (476 # 10)
  /\ Starlink.raw_lon r = Starlink.JFloat (- (1223 # 10))
  /\ Starlink.raw_alt r = Starlink.JInt 10
  /\ Starlink.raw_gps_sats r' = Starlink.JInt 8
  /\ Starlink.raw_gps_valid r' = Starlink.JBool true.
Proof.
  exact (pnt_fields_from_own_document
           Sample.location_items Sample.get_location_items Sample.lla_items
           Sample.status_items Sample.dish_status_items Sample.gps_stats_items
           None None eq_refl eq_refl eq_refl eq_refl).
Defined.

(** The position is filled as a whole or not at all: unless the answer
    parsed and [getLocation] and [lla] are dictionaries (an absent key
    counting as an empty one), latitude, longitude and altitude are all
    [None]; no error leaves one of them set and another one not. *)
Theorem pnt_position_all_or_nothing :
  forall (loc_json stat_json : option Starlink.json),
    let r := Starlink.get_starlink_pnt loc_json stat_json in
    (exists doc gl lla,
        loc_json = Some (Starlink.JDict doc)
        /\ or_default (Starlink.dict_get doc "getLocation") (Starlink.JDict [])
           = Starlink.JDict gl
        /\ or_default (Starlink.dict_get gl "lla") (Starlink.JDict [])
           = Starlink.JDict lla
        /\ Starlink.raw_lat r = or_default (Starlink.dict_get lla "lat") Starlink.JNull
        /\ Starlink.raw_lon r = or_default (Starlink.dict_get lla "lon") Starlink.JNull
        /\ Starlink.raw_alt r = or_default (Starlink.dict_get lla "alt") Starlink.JNull)
    \/ (Starlink.raw_lat r = Starlink.JNull
        /\ Starlink.raw_lon r = Starlink.JNull
        /\ Starlink.raw_alt r = Starlink.JNull).
Proof.
  intros loc_json stat_json r. subst r. unfold Starlink.get_starlink_pnt.
  destruct (Starlink.status_fields stat_json) as [s0 v0].
  unfold Starlink.location_fields, Starlink.get_or_empty.
  destruct loc_json as [[| | | | | |doc]|]; try (right; cbn; auto; fail).
  destruct (or_default (Starlink.dict_get doc "getLocation") (Starlink.JDict []))
    as [| | | | | |gl] eqn:Egl; try (right; cbn; auto; fail).
  destruct (or_default (Starlink.dict_get gl "lla") (Starlink.JDict []))
    as [| | | | | |lla] eqn:Ella; try (right; cbn; auto; fail).
  left. exists doc, gl, lla. cbn. repeat split; auto.
Qed.

Lemma nmea_lat_placeholder : Nmea.nmea_lat 47 = "4700.0000,N"%string.
Proof. reflexivity. Qed.

Lemma nmea_lon_placeholder : Nmea.nmea_lon (-122) = "12200.0000,W"%string.
Proof. reflexivity. Qed.

(** When the position query gives nothing, the UDP bridge emits no
    sentence and the MAVLink injection sends no message, but the fallback
    bridge reports the placeholder position 47 N, 122 W in its GGA
    sentence. *)
Theorem no_position_per_variant :
  forall (loc_json stat_json : option Starlink.json) (pnt : Pnt) (ntp : Ntp)
         (time_time : Q) (clock : nat -> Q) (link : Mavlink.Link),
    Starlink.location_fields loc_json
    = (Starlink.JNull, Starlink.JNull, Starlink.JNull) ->
    Starlink.typed (Starlink.get_starlink_pnt loc_json stat_json) = Some pnt ->
    Udp.generate_nmea_sentences ntp pnt time_time = []
    /\ Mavlink.send_gps_input ntp time_time pnt link = (false, link)
    /\ exists gga rest,
         Fallback.get_starlink_sentences ntp pnt clock = gga :: rest
         /\ field 2 gga = "4700.0000"%string /\ field 3 gga = "N"%string
         /\ field 4 gga = "12200.0000"%string /\ field 5 gga = "W"%string.
Proof.
  intros loc_json stat_json pnt ntp time_time clock link Hloc Hty.
  unfold Starlink.get_starlink_pnt in Hty. rewrite Hloc in Hty.
  destruct (Starlink.status_fields stat_json) as [s0 v0].
  unfold Starlink.typed in Hty. cbn in Hty.
  destruct (Starlink.as_int s0) as [sats|]; [|discriminate].
  destruct (Starlink.as_bool v0) as [valid|]; [|discriminate].
  injection Hty as <-. split; [reflexivity|]. split; [reflexivity|].
  unfold Fallback.get_starlink_sentences. cbv zeta. cbn [lat lon or_default].
  do 2 eexists. split; [reflexivity|].
  rewrite nmea_lat_placeholder, nmea_lon_placeholder.
  unfold Nmea.with_checksum, Nmea.gga. rewrite !append_assoc. cbn [append].
  repeat match goal with
  | |- context [field ?n (String "$" (String "G" (String "P" (String "G" (String "G"
                   (String "A" (String "," ?x)))))))] =>
      change (field n (String "$" (String "G" (String "P" (String "G" (String "G"
                (String "A" (String "," x))))))))
        with (field (Nat.pred n) x)
  end.
  cbn [Nat.pred]. rewrite !field_skip_time.
  repeat split; reflexivity.
Qed.

Lemma no_position_per_variant_witness :
  Udp.generate_nmea_sentences Sample.ntp_off
    {| lat := None; lon := None; alt := None; accuracy := None;
       gps_sats := Some 8; gps_valid := Some true |} (1735689600 # 1) = [].
Proof.
  apply (no_position_per_variant None (Some Sample.status_doc) _ Sample.ntp_off
           (1735689600 # 1) Sample.clock_2025 Sample.link_fresh);
    reflexivity.
Defined.

(** ** Sentences that do not depend on the fix *)

(** Whatever the terminal answered, the batch carries the same VTG and
    GSA sentences: no course and speed, and a 3D fix on twelve satellites
    with every dilution of precision at 1.0, also when the fix is flagged
    invalid. *)
Theorem vtg_gsa_are_constant :
  forall (loc_json stat_json : option Starlink.json) (pnt : Pnt) (ntp : Ntp)
         (clock : nat -> Q) (time_time : Q),
    Starlink.typed (Starlink.get_starlink_pnt loc_json stat_json) = Some pnt ->
    let fallback := Fallback.get_starlink_sentences ntp pnt clock in
    let udp := Udp.generate_nmea_sentences ntp pnt time_time in
    nth 2 fallback EmptyString = "$GPVTG,0.0,T,,M,0.0,N,0.0,K,*4C"%string
    /\ nth 4 fallback EmptyString
       = "$GPGSA,A,3,01,02,03,04,05,06,07,08,09,10,11,12,1.0,1.0,1.0*30"%string
    /\ (udp = []
        \/ nth 2 udp EmptyString = "$GPVTG,0.0,T,,M,0.0,N,0.0,K,*4C"%string
           /\ nth 4 udp EmptyString
              = "$GPGSA,A,3,01,02,03,04,05,06,07,08,09,10,11,12,1.0,1.0,1.0*30"%string).
Proof.
  intros loc_json stat_json pnt ntp clock time_time Hty fallback udp.
  assert (Hacc : accuracy pnt = None).
  { unfold Starlink.get_starlink_pnt in Hty.
    destruct (Starlink.location_fields loc_json) as [[a b] c].
    destruct (Starlink.status_fields stat_json) as [s0 v0].
    unfold Starlink.typed in Hty. cbn in Hty.
    destruct (Starlink.as_number a), (Starlink.as_number b), (Starlink.as_number c),
      (Starlink.as_int s0), (Starlink.as_bool v0); try discriminate.
    injection Hty as <-. reflexivity. }
  subst fallback udp. split; [|split].
  - reflexivity.
  - unfold Fallback.get_starlink_sentences. cbv zeta. rewrite Hacc. reflexivity.
  - unfold Udp.generate_nmea_sentences. cbv zeta.
    destruct (_ && _); [left; reflexivity | right; split; reflexivity].
Qed.

Lemma vtg_gsa_are_constant_witness :
  nth 4 (Fallback.get_starlink_sentences Sample.ntp_off Sample.fix_seattle
           Sample.clock_2025) EmptyString
  = "$GPGSA,A,3,01,02,03,04,05,06,07,08,09,10,11,12,1.0,1.0,1.0*30"%string.
Proof.
  apply (vtg_gsa_are_constant (Some Sample.location_doc) (Some Sample.status_doc)
           Sample.fix_seattle Sample.ntp_off Sample.clock_2025 (1735689600 # 1)).
  reflexivity.
Defined.

(** ** The characters of a sentence *)

Lemma numeric_printable s :
  all_chars numeric_char s = true -> all_chars printable s = true.
Proof.
  apply all_chars_impl. intros c. unfold numeric_char, is_digit, printable.
  rewrite !orb_true_iff, !andb_true_iff, !Ascii.eqb_eq, !N.leb_le.
  intros [[H | ->] | ->]; cbn; lia.
Qed.

Lemma upper_hex_printable u : all_chars printable (Py.upper_hex u) = true.
Proof. induction u; cbn [Py.upper_hex all_chars]; auto. Qed.

Lemma format_X_printable width z : all_chars printable (Py.format_X width z) = true.
Proof.
  unfold Py.format_X, Py.zero_pad.
  rewrite !all_chars_app, upper_hex_printable, all_chars_repeat by reflexivity.
  destruct (z <? 0); reflexivity.
Qed.

Lemma time_str_printable now : all_chars printable (Nmea.time_str now) = true.
Proof. apply numeric_printable, time_str_numeric. Qed.

Lemma strftime_dmy_printable now : all_chars printable (Datetime.strftime_dmy now) = true.
Proof. apply numeric_printable, strftime_dmy_numeric. Qed.

Lemma format_d_printable width z : all_chars printable (Py.format_d width z) = true.
Proof. apply numeric_printable, format_d_numeric. Qed.

Lemma str_printable z : all_chars printable (Py.str z) = true.
Proof. apply format_d_printable. Qed.

Lemma format_f_printable width prec x :
  all_chars printable (Py.format_f width prec x) = true.
Proof. apply numeric_printable, format_f_numeric. Qed.

Lemma status_printable b : all_chars printable (Nmea.status b) = true.
Proof. destruct b; reflexivity. Qed.

Lemma nmea_lat_printable x : all_chars printable (Nmea.nmea_lat x) = true.
Proof.
  unfold Nmea.nmea_lat.
  rewrite !all_chars_app, format_d_printable, format_f_printable.
  destruct (Py.geb x 0); reflexivity.
Qed.

Lemma nmea_lon_printable x : all_chars printable (Nmea.nmea_lon x) = true.
Proof.
  unfold Nmea.nmea_lon.
  rewrite !all_chars_app, format_d_printable, format_f_printable.
  destruct (Py.geb x 0); reflexivity.
Qed.

Lemma with_checksum_printable body :
  all_chars printable body = true ->
  all_chars printable (Nmea.with_checksum body) = true.
Proof.
  intros H. unfold Nmea.with_checksum, Nmea.calculate_checksum.
  rewrite !all_chars_app, H, format_X_printable. reflexivity.
Qed.

Ltac printable_body :=
  apply with_checksum_printable;
  cbn [append];
  repeat rewrite ?all_chars_app, ?all_chars_cons;
  rewrite ?time_str_printable, ?strftime_dmy_printable, ?format_d_printable,
    ?str_printable, ?format_f_printable, ?status_printable,
    ?nmea_lat_printable, ?nmea_lon_printable;
  reflexivity.

Lemma encode_ascii_printable s :
  all_chars printable s = true ->
  exists payload,
    UdpMain.encode_ascii s = Some payload
    /\ List.length payload = String.length s.
Proof.
  induction s as [|c s IH]; intros H.
  - exists []. split; reflexivity.
  - cbn [all_chars] in H. apply andb_true_iff in H. destruct H as [Hc Hs].
    destruct (IH Hs) as [payload [He Hl]].
    exists (byte_of_ascii c :: payload). cbn [UdpMain.encode_ascii].
    assert (Hlt : (N_of_ascii c <? 128)%N = true).
    { unfold printable in Hc. apply andb_true_iff in Hc. destruct Hc as [_ Hc].
      apply N.leb_le in Hc. apply N.ltb_lt. lia. }
    rewrite Hlt, He. split; [reflexivity | cbn; rewrite Hl; reflexivity].
Qed.

Lemma batches_printable ntp pnt clock time_time :
  Forall (fun s => all_chars printable s = true)
    (Fallback.get_starlink_sentences ntp pnt clock
     ++ Udp.generate_nmea_sentences ntp pnt time_time).
Proof.
  apply Forall_app. split.
  - unfold Fallback.get_starlink_sentences. cbv zeta.
    repeat constructor;
      unfold Nmea.gga, Nmea.rmc, Nmea.gll, Nmea.gsa, Nmea.zda; printable_body.
  - unfold Udp.generate_nmea_sentences. cbv zeta.
    destruct (_ && _); [constructor|].
    repeat constructor;
      unfold Nmea.gga, Nmea.rmc, Nmea.gll, Nmea.gsa; printable_body.
Qed.

(** Every sentence of either bridge is made of printable ASCII
    characters only: it holds no line break of its own, and its encoding
    to ASCII before it is sent cannot fail. *)
Theorem sentences_are_printable_ascii :
  forall (ntp : Ntp) (pnt : Pnt) (clock : nat -> Q) (time_time : Q),
    Forall (fun s => all_chars printable s = true
                     /\ exists payload, UdpMain.encode_ascii s = Some payload
                                        /\ List.length payload = String.length s)
      (Fallback.get_starlink_sentences ntp pnt clock
       ++ Udp.generate_nmea_sentences ntp pnt time_time).
Proof.
  intros ntp pnt clock time_time.
  eapply Forall_impl; [|exact (batches_printable ntp pnt clock time_time)].
  intros s Hs. split; [exact Hs | exact (encode_ascii_printable s Hs)].
Qed.

(** ** One cycle of the UDP bridge *)

Lemma list_byte_of_string_app a b :
  list_byte_of_string (a ++ b) = (list_byte_of_string a ++ list_byte_of_string b)%list.
Proof.
  unfold list_byte_of_string.
  induction a as [|c a IH]; [reflexivity|].
  cbn [append list_ascii_of_string map app]. rewrite IH. reflexivity.
Qed.

Lemma encode_ascii_bytes s :
  all_chars printable s = true ->
  UdpMain.encode_ascii s = Some (list_byte_of_string s).
Proof.
  induction s as [|c s IH]; intros H; [reflexivity|].
  cbn [all_chars] in H. apply andb_true_iff in H. destruct H as [Hc Hs].
  cbn [UdpMain.encode_ascii].
  assert (Hlt : (N_of_ascii c <? 128)%N = true).
  { unfold printable in Hc. apply andb_true_iff in Hc. destruct Hc as [_ Hc].
    apply N.leb_le in Hc. apply N.ltb_lt. lia. }
  rewrite Hlt, (IH Hs). reflexivity.
Qed.

Lemma send_all_delivered sock sentences : forall k net,
  Forall (fun s => all_chars printable s = true) sentences ->
  UdpMain.send_all sock k sentences net
  = {| UdpMain.datagrams :=
         UdpMain.datagrams net ++ map wire (delivered sock k sentences);
       UdpMain.total_sent :=
         UdpMain.total_sent net
         + Z.of_nat (List.length (delivered sock k sentences)) |}.
Proof.
  induction sentences as [|s r IH]; intros k net Hall.
  - cbn. rewrite app_nil_r, Z.add_0_r. destruct net; reflexivity.
  - inversion Hall as [|? ? Hs Hr]; subst.
    cbn [UdpMain.send_all delivered]. unfold UdpMain.send_udp.
    rewrite (encode_ascii_bytes s Hs).
    destruct (sock k); cbn [snd]; rewrite (IH _ _ Hr); cbn [UdpMain.datagrams
      UdpMain.total_sent map List.length]; [|reflexivity].
    f_equal.
    + rewrite <- app_assoc. cbn [app]. unfold wire.
      rewrite list_byte_of_string_app. reflexivity.
    + lia.
Qed.

(** In one cycle of the UDP bridge the socket receives, in the order of
    the batch, exactly the sentences whose send went through, each
    followed by CR LF; [total_sent] grows by their number; and the cycle
    is counted whenever the batch is not empty, even if no send went
    through. *)
Theorem udp_cycle_accounts_for_datagrams :
  forall (ntp : Ntp) (pnt : Pnt) (time_time : Q) (sock : nat -> bool)
         (net : UdpMain.Net) (cycle_count : Z),
    let batch := Udp.generate_nmea_sentences ntp pnt time_time in
    let after := UdpMain.cycle ntp pnt time_time sock net cycle_count in
    UdpMain.datagrams (fst after)
    = UdpMain.datagrams net ++ map wire (delivered sock 0 batch)
    /\ UdpMain.total_sent (fst after)
       = UdpMain.total_sent net + Z.of_nat (List.length (delivered sock 0 batch))
    /\ snd after = cycle_count + match batch with [] => 0 | _ :: _ => 1 end.
Proof.
  intros ntp pnt time_time sock net cycle_count batch after.
  pose proof (batches_printable ntp pnt (fun _ => 0%Q) time_time) as Hp.
  apply Forall_app in Hp. destruct Hp as [_ Hp']. fold batch in Hp'.
  subst after. unfold UdpMain.cycle. fold batch.
  destruct batch as [|s r] eqn:E.
  - cbn. rewrite app_nil_r. repeat split; lia.
  - cbn [fst snd]. rewrite (send_all_delivered sock (s :: r) 0%nat net Hp').
    repeat split; reflexivity.
Qed.

(** ** The periodic synchronisation of the main loops *)

Lemma geb_iff x y : Py.geb x y = true <-> (y <= x)%Q.
Proof. unfold Py.geb. apply Qle_bool_iff. Qed.

(** An attempt of the main loop stamps [ntp_last_sync] with the loop's
    own reading whether or not the synchronisation succeeded, so after a
    pass that attempted one, a pass less than [NTP_UPDATE_INTERVAL] later
    makes no external call and changes nothing; and when the clock did
    not go back between the two readings of a pass, the attempt does
    probe the time source.  This holds in the UDP bridge and in the
    MAVLink injection. *)
Theorem main_loop_attempts_once_per_interval :
  forall (parse_sntp parse_ntpdate parse_offset : string -> option Q)
         (env1 env2 : NtpEnv) (t1 s1 t2 s2 : Q) (ntp : Ntp),
    (NTP_UPDATE_INTERVAL <= t1 - ntp_last_sync ntp)%Q ->
    (t2 - t1 < NTP_UPDATE_INTERVAL)%Q ->
    let u1 := UdpMain.update_ntp parse_sntp parse_ntpdate env1 t1 s1 ntp in
    let m1 := MavlinkMain.update_ntp parse_offset env1 t1 s1 ntp in
    (ntp_last_sync (fst u1) = t1
     /\ UdpMain.update_ntp parse_sntp parse_ntpdate env2 t2 s2 (fst u1) = (fst u1, [])
     /\ ((t1 <= s1)%Q -> exists rest, snd u1 = CallProbe :: rest))
    /\ (ntp_last_sync (fst m1) = t1
        /\ MavlinkMain.update_ntp parse_offset env2 t2 s2 (fst m1) = (fst m1, [])
        /\ ((t1 <= s1)%Q -> exists rest, snd m1 = CallProbe :: rest)).
Proof.
  intros parse_sntp parse_ntpdate parse_offset env1 env2 t1 s1 t2 s2 ntp Hopen Hnear u1 m1.
  assert (Hgate : Py.geb (t1 - ntp_last_sync ntp) NTP_UPDATE_INTERVAL = true)
    by (apply geb_iff; exact Hopen).
  assert (Hshut : Py.geb (t2 - t1) NTP_UPDATE_INTERVAL = false).
  { destruct (Py.geb (t2 - t1) NTP_UPDATE_INTERVAL) eqn:E; [|reflexivity].
    apply geb_iff in E. exfalso. apply (Qlt_not_le _ _ Hnear E). }
  assert (Hinner : (t1 <= s1)%Q ->
            Py.ltb (s1 - ntp_last_sync ntp) NTP_UPDATE_INTERVAL = false).
  { intros Hmono.
    destruct (Py.ltb (s1 - ntp_last_sync ntp) NTP_UPDATE_INTERVAL) eqn:E; [|reflexivity].
    apply ltb_iff in E. unfold NTP_UPDATE_INTERVAL in *. lra. }
  split.
  - assert (Hu : exists ntp1 ok calls,
               Udp.sync_ntp_time parse_sntp parse_ntpdate env1 s1 ntp = (ntp1, ok, calls)
               /\ u1 = (stamped ntp1 t1, calls)).
    { subst u1. unfold UdpMain.update_ntp. rewrite Hgate.
      destruct (Udp.sync_ntp_time parse_sntp parse_ntpdate env1 s1 ntp)
        as [[ntp1 ok] calls]. eauto. }
    destruct Hu as (ntp1 & ok & calls & Es & Hu). rewrite Hu. clear Hu u1 m1.
    cbn [fst snd]. split; [reflexivity|]. split.
    + unfold UdpMain.update_ntp. cbn [stamped ntp_last_sync]. rewrite Hshut. reflexivity.
    + intros Hmono. unfold Udp.sync_ntp_time in Es. rewrite (Hinner Hmono) in Es.
      destruct (probe env1); cbn [negb] in Es.
      * destruct (first_tool env1) as [rc out | | |].
        -- destruct (if usable_output rc out then parse_sntp out else None);
             injection Es as _ _ <-; eexists; reflexivity.
        -- injection Es as _ _ <-; eexists; reflexivity.
        -- destruct (second_tool env1) as [rc out | | |];
             [destruct (if usable_output rc out then parse_ntpdate out else None)| | |];
             injection Es as _ _ <-; eexists; reflexivity.
        -- injection Es as _ _ <-; eexists; reflexivity.
      * injection Es as _ _ <-. eexists; reflexivity.
  - assert (Hm : exists ntp1 ok calls,
               Mavlink.sync_ntp_time parse_offset env1 s1 ntp = (ntp1, ok, calls)
               /\ m1 = (stamped ntp1 t1, calls)).
    { subst m1. unfold MavlinkMain.update_ntp. rewrite Hgate.
      destruct (Mavlink.sync_ntp_time parse_offset env1 s1 ntp)
        as [[ntp1 ok] calls]. eauto. }
    destruct Hm as (ntp1 & ok & calls & Es & Hm). rewrite Hm. clear Hm u1 m1.
    cbn [fst snd]. split; [reflexivity|]. split.
    + unfold MavlinkMain.update_ntp. cbn [stamped ntp_last_sync]. rewrite Hshut. reflexivity.
    + intros Hmono. unfold Mavlink.sync_ntp_time in Es. rewrite (Hinner Hmono) in Es.
      destruct (probe env1); cbn [negb] in Es.
      * destruct (Mavlink.try_tool parse_offset (first_tool env1));
          [|destruct (Mavlink.try_tool parse_offset (second_tool env1))];
          injection Es as _ _ <-; eexists; reflexivity.
      * injection Es as _ _ <-. eexists; reflexivity.
Qed.

Lemma main_loop_attempts_once_per_interval_witness :
  let u1 := UdpMain.update_ntp Sample.parse_first_word Sample.parse_ntpdate
              Sample.env_timeout (1735689600 # 1) (1735689600 # 1)
              Sample.ntp_initial in
  ntp_last_sync (fst u1) = (1735689600 # 1)
  /\ UdpMain.update_ntp Sample.parse_first_word Sample.parse_ntpdate
       Sample.env_ok_first_word (1735689601 # 1) (1735689601 # 1) (fst u1)
     = (fst u1, [])
  /\ exists rest, snd u1 = CallProbe :: rest.
Proof.
  intros u1.
  destruct (main_loop_attempts_once_per_interval Sample.parse_first_word
              Sample.parse_ntpdate Sample.parse_offset Sample.env_timeout
              Sample.env_ok_first_word (1735689600 # 1) (1735689600 # 1)
              (1735689601 # 1) (1735689601 # 1) Sample.ntp_initial)
    as [(H1 & H2 & H3) _].
  - vm_compute. discriminate.
  - vm_compute. reflexivity.
  - split; [exact H1|]. split; [exact H2|]. apply H3. vm_compute. discriminate.
Defined.

(** ** What a synchronisation leaves behind *)

(** A call of [sync_ntp_time] that returns [False] leaves the offset and
    the time of the last synchronisation as they were, in both scripts:
    only a success replaces them. *)
Theorem failed_sync_keeps_offset :
  forall (parse_sntp parse_ntpdate parse_offset : string -> option Q)
         (env : NtpEnv) (t : Q) (ntp : Ntp),
    let u := Udp.sync_ntp_time parse_sntp parse_ntpdate env t ntp in
    let m := Mavlink.sync_ntp_time parse_offset env t ntp in
    (snd (fst u) = false ->
     ntp_offset (fst (fst u)) = ntp_offset ntp
     /\ ntp_last_sync (fst (fst u)) = ntp_last_sync ntp)
    /\ (snd (fst m) = false ->
        ntp_offset (fst (fst m)) = ntp_offset ntp
        /\ ntp_last_sync (fst (fst m)) = ntp_last_sync ntp).
Proof.
  intros parse_sntp parse_ntpdate parse_offset env t ntp u m. split.
  - subst u. unfold Udp.sync_ntp_time.
    destruct (Py.ltb _ _); [cbn; auto|].
    destruct (probe env); cbn [negb]; [|cbn; auto].
    destruct (first_tool env) as [rc out | | |]; try (cbn; auto; fail).
    + destruct (if usable_output rc out then parse_sntp out else None);
        cbn; [discriminate | auto].
    + destruct (second_tool env) as [rc out | | |]; try (cbn; auto; fail).
      destruct (if usable_output rc out then parse_ntpdate out else None);
        cbn; [discriminate | auto].
  - subst m. unfold Mavlink.sync_ntp_time.
    destruct (Py.ltb _ _); [cbn; auto|].
    destruct (probe env); cbn [negb]; [|cbn; auto].
    destruct (Mavlink.try_tool parse_offset (first_tool env)); [cbn; discriminate|].
    destruct (Mavlink.try_tool parse_offset (second_tool env));
      cbn; [discriminate | auto].
Qed.

Lemma failed_sync_keeps_offset_witness :
  let stale := {| ntp_offset := 1 # 4; ntp_last_sync := 1735689000;
                  ntp_available := true |} in
  ntp_offset
    (fst (fst (Mavlink.sync_ntp_time Sample.parse_offset Sample.env_timeout
                 (1735689600 # 1) stale))) = 1 # 4
  /\ ntp_last_sync
       (fst (fst (Mavlink.sync_ntp_time Sample.parse_offset Sample.env_timeout
                    (1735689600 # 1) stale))) = 1735689000%Q.
Proof.
  intros stale.
  destruct (failed_sync_keeps_offset Sample.parse_first_word Sample.parse_ntpdate
              Sample.parse_offset Sample.env_timeout (1735689600 # 1) stale)
    as [_ H].
  apply H. reflexivity.
Defined.

(** In the MAVLink injection the value returned by [sync_ntp_time] is
    always the availability flag it leaves, so after a [False] the
    corrected time is the system time.  In the UDP bridge the same holds
    except when neither [sntp] nor [ntpdate] is installed: then the call
    returns [False] and touches nothing, and a clock that was available
    stays so, with its old offset. *)
Theorem sync_result_and_availability :
  forall (parse_sntp parse_ntpdate parse_offset : string -> option Q)
         (env : NtpEnv) (t t' : Q) (ntp : Ntp),
    let u := Udp.sync_ntp_time parse_sntp parse_ntpdate env t ntp in
    let m := Mavlink.sync_ntp_time parse_offset env t ntp in
    (snd (fst m) = ntp_available (fst (fst m))
     /\ (snd (fst m) = false ->
         (Mavlink.get_ntp_timestamp (fst (fst m)) t' == t')%Q))
    /\ (snd (fst u) = ntp_available (fst (fst u))
        \/ (first_tool env = FileNotFoundError
            /\ second_tool env = FileNotFoundError
            /\ u = (ntp, false, [CallProbe; CallTool "sntp"; CallTool "ntpdate"]))).
Proof.
  intros parse_sntp parse_ntpdate parse_offset env t t' ntp u m. split.
  - assert (H : snd (fst m) = ntp_available (fst (fst m))).
    { subst m. unfold Mavlink.sync_ntp_time.
      destruct (Py.ltb _ _); [reflexivity|].
      destruct (probe env); cbn [negb]; [|reflexivity].
      destruct (Mavlink.try_tool parse_offset (first_tool env)); [reflexivity|].
      destruct (Mavlink.try_tool parse_offset (second_tool env)); reflexivity. }
    split; [exact H|]. intros Hf. rewrite Hf in H.
    unfold Mavlink.get_ntp_timestamp. rewrite <- H. lra.
  - subst u. unfold Udp.sync_ntp_time.
    destruct (Py.ltb _ _); [left; reflexivity|].
    destruct (probe env); cbn [negb]; [|left; reflexivity].
    destruct (first_tool env) as [rc out | | |]; try (left; reflexivity).
    + destruct (if usable_output rc out then parse_sntp out else None);
        left; reflexivity.
    + destruct (second_tool env) as [rc out | | |]; try (left; reflexivity).
      * destruct (if usable_output rc out then parse_ntpdate out else None);
          left; reflexivity.
      * right. auto.
Qed.

Lemma sync_result_and_availability_witness :
  let stale := {| ntp_offset := 1 # 4; ntp_last_sync := 1735689000;
                  ntp_available := true |} in
  (Mavlink.get_ntp_timestamp
     (fst (fst (Mavlink.sync_ntp_time Sample.parse_offset Sample.env_timeout
                  (1735689600 # 1) stale))) (1735689601 # 1)
   == 1735689601 # 1)%Q.
Proof.
  intros stale.
  destruct (sync_result_and_availability Sample.parse_first_word
              Sample.parse_ntpdate Sample.parse_offset Sample.env_timeout
              (1735689600 # 1) (1735689601 # 1) stale) as [[_ H] _].
  apply H. reflexivity.
Defined.

(** ** Traces of the fallback bridge *)

Lemma printed_app msg a b :
  FallbackMain.printed msg (a ++ b)
  = (FallbackMain.printed msg a + FallbackMain.printed msg b)%nat.
Proof.
  induction a as [|e a IH]; [reflexivity|].
  destruct e; cbn [app FallbackMain.printed]; rewrite IH; lia.
Qed.

Lemma pipe_writes_app a b :
  FallbackMain.pipe_writes (a ++ b)
  = FallbackMain.pipe_writes a ++ FallbackMain.pipe_writes b.
Proof.
  induction a as [|e a IH]; [reflexivity|].
  destruct e; cbn [app FallbackMain.pipe_writes]; rewrite IH; reflexivity.
Qed.


(** *** The handler of a device error *)

Lemma handler_batch_logs_once sentences results : forall k logged,
  (forall j e, results j <> FallbackMain.WriteError e) ->
  let r := FallbackMain.handler_batch sentences results k logged in
  (FallbackMain.printed FallbackMain.MSG_BROKEN_PIPE (snd r) + Nat.b2n logged
   <= List.length (FallbackMain.pipe_writes (snd r)) + Nat.b2n (fst r))%nat.
Proof.
  induction sentences as [|nmea rest IH]; intros k logged Hno r; subst r.
  - cbn. lia.
  - cbn [FallbackMain.handler_batch].
    destruct (FallbackMain.handler_write nmea (results k) logged) as [l1 out1] eqn:E1.
    specialize (IH (S k) l1 Hno). cbv zeta in IH.
    destruct (FallbackMain.handler_batch rest results (S k) l1) as [l2 out2].
    cbn [fst snd] in *. rewrite printed_app, pipe_writes_app, length_app.
    assert (H1 : (FallbackMain.printed FallbackMain.MSG_BROKEN_PIPE out1
                  + Nat.b2n logged
                  <= List.length (FallbackMain.pipe_writes out1) + Nat.b2n l1)%nat).
    { unfold FallbackMain.handler_write in E1.
      destruct (results k) as [| |e] eqn:Er.
      - injection E1 as <- <-. cbn. destruct logged; cbn; lia.
      - injection E1 as <- <-. destruct logged; cbn; lia.
      - exfalso. exact (Hno k e Er). }
    lia.
Qed.

(** In the handler of a device error, as long as writes either go through
    or raise [BrokenPipeError], the broken-pipe diagnostic is printed at
    most once more than lines were written: once per outage of the
    reader, not once per sentence. *)
Theorem broken_pipe_logged_once_per_outage :
  forall (ntp : Ntp) (passes : list FallbackMain.Pass),
    (forall p j e, In p passes ->
                   FallbackMain.pass_results p j <> FallbackMain.WriteError e) ->
    let tr := snd (FallbackMain.handler_loop ntp passes false) in
    (FallbackMain.printed FallbackMain.MSG_BROKEN_PIPE tr
     <= List.length (FallbackMain.pipe_writes tr) + 1)%nat.
Proof.
  intros ntp passes Hno.
  assert (G : forall logged,
    (FallbackMain.printed FallbackMain.MSG_BROKEN_PIPE
       (snd (FallbackMain.handler_loop ntp passes logged)) + Nat.b2n logged
     <= List.length (FallbackMain.pipe_writes
                       (snd (FallbackMain.handler_loop ntp passes logged))) + 1)%nat).
  { induction passes as [|p rest IH]; intros logged.
    - cbn. destruct logged; cbn; lia.
    - cbn [FallbackMain.handler_loop].
      pose proof (handler_batch_logs_once
                    (Fallback.get_starlink_sentences ntp (FallbackMain.pass_pnt p)
                       (FallbackMain.pass_clock p))
                    (FallbackMain.pass_results p) 0%nat logged
                    (fun j e => Hno p j e (or_introl eq_refl))) as Hb.
      cbv zeta in Hb.
      destruct (FallbackMain.handler_batch _ _ _ _) as [l1 out1].
      cbn [fst snd] in Hb.
      destruct (FallbackMain.device_present p).
      + cbn [snd]. rewrite printed_app, pipe_writes_app, length_app. cbn.
        destruct l1; cbn in Hb; lia.
      + assert (Hrest : forall q j e, In q rest ->
                  FallbackMain.pass_results q j <> FallbackMain.WriteError e)
          by (intros q j e Hq; apply Hno; right; exact Hq).
        specialize (IH Hrest l1).
        destruct (FallbackMain.handler_loop ntp rest l1) as [active out2].
        cbn [snd] in *.
        rewrite !printed_app, !pipe_writes_app, !length_app. cbn. lia. }
  intros tr. subst tr. specialize (G false). cbn in G. lia.
Qed.

Lemma broken_pipe_logged_once_per_outage_witness :
  let no_reader :=
    {| FallbackMain.pass_pnt := Sample.fix_seattle;
       FallbackMain.pass_clock := Sample.clock_2025;
       FallbackMain.pass_results := fun _ => FallbackMain.BrokenPipe;
       FallbackMain.device_present := false |} in
  let tr := snd (FallbackMain.handler_loop Sample.ntp_off
                   [no_reader; no_reader; no_reader] false) in
  (FallbackMain.printed FallbackMain.MSG_BROKEN_PIPE tr
   <= List.length (FallbackMain.pipe_writes tr) + 1)%nat.
Proof.
  intros no_reader.
  apply (broken_pipe_logged_once_per_outage Sample.ntp_off
           [no_reader; no_reader; no_reader]).
  intros p j e Hin.
  destruct Hin as [<- | [<- | [<- | []]]]; cbn; discriminate.
Defined.

(** *** Switches and returns alternate *)

Lemma resumed_flat_map_write l :
  FallbackMain.printed Fallback.MSG_RESUMED (flat_map Fallback.write_sentence l) = 0%nat.
Proof.
  induction l as [|x l IH]; [reflexivity|].
  cbn [flat_map]. rewrite printed_app, IH. reflexivity.
Qed.

Lemma resumed_emit ntp i s :
  FallbackMain.printed Fallback.MSG_RESUMED (Fallback.emit ntp i s) = 0%nat.
Proof.
  unfold Fallback.emit. destruct (Fallback.fallback_active s);
    [apply resumed_flat_map_write | reflexivity].
Qed.

Lemma iteration_alternates ntp i s :
  (Fallback.switches (snd (Fallback.iteration ntp i s))
   + Nat.b2n (Fallback.fallback_active s)
   = FallbackMain.printed Fallback.MSG_RESUMED (snd (Fallback.iteration ntp i s))
     + Nat.b2n (Fallback.fallback_active (fst (Fallback.iteration ntp i s))))%nat.
Proof.
  destruct (Fallback.recognized (Fallback.line_of i)) eqn:E.
  - apply recognized_iff_talker_prefix in E.
    destruct (iteration_recognized ntp i s E) as (Hs & Hsw & _).
    rewrite Hsw, Hs. cbn [Fallback.fallback_active Nat.b2n].
    unfold Fallback.iteration, Fallback.on_line.
    apply recognized_iff_talker_prefix in E. rewrite E.
    unfold Fallback.check_lock_loss. cbn [Fallback.fallback_active negb andb].
    destruct (Py.gtb _ _); cbn [snd];
      rewrite !printed_app, resumed_emit;
      destruct (Fallback.fallback_active s); cbn; lia.
  - apply not_recognized_iff in E. rewrite (iteration_unrecognized ntp i s E).
    cbn [fst snd]. rewrite switches_app, printed_app, switches_emit, resumed_emit.
    unfold Fallback.check_lock_loss.
    destruct (Fallback.fallback_active s) eqn:Ef; cbn [negb andb].
    + cbn [fst snd]. rewrite Ef. reflexivity.
    + destruct (Py.gtb _ _); cbn [fst snd Fallback.fallback_active];
        [reflexivity | rewrite Ef; reflexivity].
Qed.

(** Over any run of the inner loop, whatever the lines and the times, the
    lock-loss switches and the returns from fallback alternate: their
    counts differ by at most one, the difference being given by the state
    at the start and at the end. *)
Theorem switches_and_returns_alternate :
  forall (ntp : Ntp) (inputs : list Fallback.Input) (s : Fallback.State),
    (Fallback.switches (snd (Fallback.run ntp inputs s))
     + Nat.b2n (Fallback.fallback_active s)
     = FallbackMain.printed Fallback.MSG_RESUMED (snd (Fallback.run ntp inputs s))
       + Nat.b2n (Fallback.fallback_active (fst (Fallback.run ntp inputs s))))%nat.
Proof.
  intros ntp inputs. induction inputs as [|i rest IH]; intros s; [reflexivity|].
  cbn [Fallback.run].
  pose proof (iteration_alternates ntp i s) as Hi.
  destruct (Fallback.iteration ntp i s) as [s1 out1]. cbn [fst snd] in Hi.
  specialize (IH s1).
  destruct (Fallback.run ntp rest s1) as [s2 out2]. cbn [fst snd] in *.
  rewrite switches_app, printed_app. lia.
Qed.

(** *** Pass-through *)

Lemma pipe_writes_recognized ntp i s :
  talker_prefix (Fallback.line_of i) ->
  FallbackMain.pipe_writes (snd (Fallback.iteration ntp i s))
  = [(Fallback.line_of i ++ CRLF)%string].
Proof.
  intros H. pose proof H as E. apply recognized_iff_talker_prefix in E.
  unfold Fallback.iteration, Fallback.on_line. rewrite E.
  unfold Fallback.check_lock_loss. cbn [Fallback.fallback_active negb andb].
  assert (Hq : Py.gtb (Fallback.now i - Fallback.now i) Fallback.LOCK_LOSS_THRESHOLD
               = false).
  { destruct (Py.gtb _ _) eqn:G; [|reflexivity].
    apply gtb_iff in G. unfold Fallback.LOCK_LOSS_THRESHOLD in G. lra. }
  cbn [Fallback.last_gps_data_time]. rewrite Hq. cbn [snd].
  unfold Fallback.emit. cbn [Fallback.fallback_active].
  rewrite !pipe_writes_app. destruct (Fallback.fallback_active s); reflexivity.
Qed.



(** *** Reading a line of the receiver *)

Lemma decode_printable s :
  all_chars (fun c => (N_of_ascii c <? 128)%N) s = true ->
  Py.decode_ascii_ignore (list_byte_of_string s) = s.
Proof.
  unfold list_byte_of_string.
  induction s as [|c s IH]; intros H; [reflexivity|].
  cbn [all_chars] in H. apply andb_true_iff in H. destruct H as [Hc Hs].
  cbn [list_ascii_of_string map Py.decode_ascii_ignore].
  rewrite ascii_of_byte_of_ascii, Hc, (IH Hs). reflexivity.
Qed.

Lemma lstrip_spaces w : all_chars Py.isspace w = true -> Py.lstrip w = EmptyString.
Proof.
  induction w as [|c w IH]; intros H; [reflexivity|].
  cbn [all_chars] in H. apply andb_true_iff in H. destruct H as [Hc Hw].
  cbn [Py.lstrip]. rewrite Hc. exact (IH Hw).
Qed.

Lemma rstrip_spaces w : all_chars Py.isspace w = true -> Py.rstrip w = EmptyString.
Proof.
  induction w as [|c w IH]; intros H; [reflexivity|].
  cbn [all_chars] in H. apply andb_true_iff in H. destruct H as [Hc Hw].
  cbn [Py.rstrip]. rewrite (IH Hw), Hc. reflexivity.
Qed.

Lemma rstrip_app_spaces s w :
  all_chars Py.isspace w = true -> Py.rstrip (s ++ w) = Py.rstrip s.
Proof.
  intros Hw. induction s as [|c s IH].
  - cbn [append]. rewrite (rstrip_spaces w Hw). reflexivity.
  - cbn [append Py.rstrip]. rewrite IH. reflexivity.
Qed.

Lemma strip_app_spaces s w :
  all_chars Py.isspace w = true -> Py.strip (s ++ w) = Py.strip s.
Proof.
  intros Hw. unfold Py.strip. induction s as [|c s IH].
  - cbn [append Py.lstrip]. rewrite (lstrip_spaces w Hw). reflexivity.
  - cbn [append Py.lstrip]. destruct (Py.isspace c); [exact IH|].
    exact (rstrip_app_spaces (String c s) w Hw).
Qed.

(** A sentence of printable ASCII characters without blanks at its ends,
    arriving from the receiver with its CR LF, is read back as itself;
    if it begins with [$GP] or [$GN], what is written to the pipe in that
    iteration is byte for byte what was read from the serial port. *)
Theorem receiver_sentence_relayed_verbatim :
  forall (ntp : Ntp) (sentence : string) (i : Fallback.Input) (s : Fallback.State),
    all_chars printable sentence = true ->
    Py.strip sentence = sentence ->
    Fallback.raw i = wire sentence ->
    Fallback.line_of i = sentence
    /\ (talker_prefix sentence ->
        map list_byte_of_string
          (FallbackMain.pipe_writes (snd (Fallback.iteration ntp i s)))
        = [Fallback.raw i]).
Proof.
  intros ntp sentence i s Hp Hstrip Hraw.
  assert (Hline : Fallback.line_of i = sentence).
  { unfold Fallback.line_of. rewrite Hraw. unfold wire.
    rewrite decode_printable.
    - rewrite strip_app_spaces by reflexivity. exact Hstrip.
    - rewrite all_chars_app. apply andb_true_iff. split; [|reflexivity].
      revert Hp. apply all_chars_impl. intros c. unfold printable.
      rewrite andb_true_iff, !N.leb_le, N.ltb_lt. lia. }
  split; [exact Hline|].
  intros Htp. rewrite pipe_writes_recognized by (rewrite Hline; exact Htp).
  rewrite Hline, Hraw. reflexivity.
Qed.

Lemma receiver_sentence_relayed_verbatim_witness :
  Fallback.line_of (Sample.input_gps 1000)
  = "$GPGGA,000000.00,4736.0000,N,12218.0000,W,1,8,1.0,10.0,M,0.0,M,,*48"%string
  /\ map list_byte_of_string
       (FallbackMain.pipe_writes
          (snd (Fallback.iteration Sample.ntp_off (Sample.input_gps 1000)
                  Fallback.initial)))
     = [Sample.gga_bytes].
Proof.
  destruct (receiver_sentence_relayed_verbatim Sample.ntp_off
              "$GPGGA,000000.00,4736.0000,N,12218.0000,W,1,8,1.0,10.0,M,0.0,M,,*48"
              (Sample.input_gps 1000) Fallback.initial) as [H1 H2];
    try reflexivity.
  split; [exact H1|]. apply H2. eexists. left. reflexivity.
Defined.

(** ** GNSS time as a count of milliseconds *)








(** ** The messages on the autopilot link *)








(** ** Coordinates read back from a sentence *)

Lemma padded_2 :
  forallb (fun k => padded_ok 2 (Z.of_nat k)) (seq 0 (Z.to_nat 100)) = true.
Proof. vm_compute. reflexivity. Qed.



Lemma padded_below w n v :
  forallb (fun k => padded_ok w (Z.of_nat k)) (seq 0 n) = true ->
  0 <= v < Z.of_nat n ->
  String.length (Py.format_d w v) = w
  /\ number_of 0 (Py.format_d w v) = Some v.
Proof.
  intros Hall Hv.
  pose proof (proj1 (forallb_forall _ _) Hall (Z.to_nat v)) as H.
  cbv beta in H. rewrite Z2Nat.id in H by lia.
  assert (Hin : In (Z.to_nat v) (seq 0 n)) by (apply in_seq; lia).
  specialize (H Hin). unfold padded_ok in H.
  apply andb_true_iff in H. destruct H as [Hl Hn].
  apply Nat.eqb_eq in Hl. split; [exact Hl|].
  destruct (number_of 0 (Py.format_d w v)) as [x|]; [|discriminate].
  apply Z.eqb_eq in Hn. subst x. reflexivity.
Qed.


Lemma repeat_char_length c n : String.length (Py.repeat_char c n) = n.
Proof. induction n as [|n IH]; [reflexivity|]. cbn. rewrite IH. reflexivity. Qed.






Lemma two_chars s : String.length s = 2%nat -> exists a b, s = String a (String b "").
Proof.
  destruct s as [|a [|b [|c r]]]; cbn; intros H; try discriminate. eauto.
Qed.






(** ** What one iteration writes to the pipe *)



(** ** The time field *)

Lemma all_from_spec fuel p : forall k v,
  all_from fuel k p = true -> k <= v < k + Z.of_nat fuel -> p v = true.
Proof.
  induction fuel as [|f IH]; intros k v H Hv; [lia|].
  cbn [all_from] in H. apply andb_true_iff in H. destruct H as [Hk Hr].
  destruct (Z.eq_dec v k) as [-> | Hne]; [exact Hk|].
  apply (IH (k + 1)); [exact Hr | lia].
Qed.

Lemma hundredths_all : all_from (Z.to_nat 1000000) 0 hundredths_ok = true.
Proof. vm_compute. reflexivity. Qed.

Lemma six_chars s :
  String.length s = 6%nat ->
  exists a b c d e f,
    s = String a (String b (String c (String d (String e (String f ""))))).
Proof.
  destruct s as [|a [|b [|c [|d [|e [|f [|g r]]]]]]]; cbn; intros H;
    try discriminate.
  do 6 eexists. reflexivity.
Qed.

(** For a time of day within its ranges the time field is [HHMMSS.ss],
    nine characters, and its last two digits are the hundredths of a
    second cut off, not rounded: 59.999999 s is printed as [59.99]. *)
Theorem time_field_truncates_to_hundredths :
  forall (now : Datetime.datetime),
    0 <= Datetime.hour now < 100 ->
    0 <= Datetime.minute now < 100 ->
    0 <= Datetime.second now < 100 ->
    0 <= Datetime.microsecond now < 1000000 ->
    Nmea.time_str now
    = (Py.format_d 2 (Datetime.hour now) ++ Py.format_d 2 (Datetime.minute now)
       ++ Py.format_d 2 (Datetime.second now) ++ "."
       ++ Py.format_d 2 (Datetime.microsecond now / 10000))%string
    /\ String.length (Nmea.time_str now) = 9%nat.
Proof.
  intros now Hh Hm Hs Hu.
  destruct (padded_below 2 (Z.to_nat 100) _ padded_2
              (ltac:(lia) : 0 <= Datetime.hour now < Z.of_nat (Z.to_nat 100)))
    as [Lh _].
  destruct (padded_below 2 (Z.to_nat 100) _ padded_2
              (ltac:(lia) : 0 <= Datetime.minute now < Z.of_nat (Z.to_nat 100)))
    as [Lm _].
  destruct (padded_below 2 (Z.to_nat 100) _ padded_2
              (ltac:(lia) : 0 <= Datetime.second now < Z.of_nat (Z.to_nat 100)))
    as [Ls _].
  pose proof (all_from_spec _ _ 0 (Datetime.microsecond now) hundredths_all
                ltac:(lia)) as Hok.
  unfold hundredths_ok in Hok. apply andb_true_iff in Hok.
  destruct Hok as [Hpre Hlen]. apply String.eqb_eq in Hpre. apply Nat.eqb_eq in Hlen.
  unfold Nmea.time_str, Py.drop_last, Datetime.strftime_HMSf.
  rewrite <- Hpre.
  destruct (two_chars _ Lh) as (h1 & h2 & ->).
  destruct (two_chars _ Lm) as (m1 & m2 & ->).
  destruct (two_chars _ Ls) as (s1 & s2 & ->).
  destruct (six_chars _ Hlen) as (u1 & u2 & u3 & u4 & u5 & u6 & ->).
  split; reflexivity.
Qed.

Lemma time_field_truncates_to_hundredths_witness :
  Nmea.time_str (Datetime.Build_datetime 2025 1 1 23 59 59 999999)
  = (Py.format_d 2 23 ++ Py.format_d 2 59 ++ Py.format_d 2 59 ++ "."
     ++ Py.format_d 2 (999999 / 10000))%string
  /\ String.length
       (Nmea.time_str (Datetime.Build_datetime 2025 1 1 23 59 59 999999)) = 9%nat.
Proof.
  apply (time_field_truncates_to_hundredths
           (Datetime.Build_datetime 2025 1 1 23 59 59 999999));
    cbn; lia.
Defined.

(** ** The clock correction and the two encoders side by side *)


(** For a fix with every field present and not at (0, 0), and a clock
    that stands still during the batch, the UDP bridge sends exactly the
    first five sentences of the fallback bridge: the two encoders agree
    wherever both have data. *)
Theorem encoders_agree_on_complete_fix :
  forall (ntp : Ntp) (pnt : Pnt) (clock : nat -> Q) (time_time : Q)
         (la lo al : Q) (sats : Z) (valid : bool),
    lat pnt = Some la -> lon pnt = Some lo -> alt pnt = Some al ->
    gps_sats pnt = Some sats -> gps_valid pnt = Some valid ->
    accuracy pnt = None ->
    ~ (la == 0 /\ lo == 0)%Q ->
    (forall k, clock k = time_time) ->
    firstn 5 (Fallback.get_starlink_sentences ntp pnt clock)
    = Udp.generate_nmea_sentences ntp pnt time_time.
Proof.
  intros ntp pnt clock time_time la lo al sats valid Hla Hlo Hal Hs Hv Hacc Hnz Hc.
  assert (Hne : Udp.generate_nmea_sentences ntp pnt time_time <> []).
  { intros E. apply udp_batch_empty_iff in E. rewrite Hla, Hlo in E.
    cbn [or_default] in E. exact (Hnz E). }
  unfold Udp.generate_nmea_sentences in *. cbv zeta in *.
  destruct (Py.eqb (or_default (lat pnt) 0%Q) 0 && Py.eqb (or_default (lon pnt) 0%Q) 0);
    [congruence|].
  unfold Fallback.get_starlink_sentences, Fallback.sample_now,
    Fallback.get_ntp_timestamp, Udp.get_ntp_timestamp.
  rewrite !Hc, Hla, Hlo, Hal, Hs, Hv, Hacc. reflexivity.
Qed.

Lemma encoders_agree_on_complete_fix_witness :
  firstn 5 (Fallback.get_starlink_sentences Sample.ntp_on Sample.fix_seattle
              (fun _ => 1735689600 # 1))
  = Udp.generate_nmea_sentences Sample.ntp_on Sample.fix_seattle (1735689600 # 1).
Proof.
  apply (encoders_agree_on_complete_fix Sample.ntp_on Sample.fix_seattle
           (fun _ => 1735689600 # 1) (1735689600 # 1)
           (476 # 10) (- (1223 # 10))%Q 10%Q 8 true);
    try reflexivity.
  intros [H _]. vm_compute in H. discriminate.
Defined.

(** ** What the checksum detects *)

Lemma xor_bytes_app a b : xor_bytes (a ++ b) = Z.lxor (xor_bytes a) (xor_bytes b).
Proof.
  induction a as [|c a IH]; cbn [append xor_bytes].
  - rewrite Z.lxor_0_l. reflexivity.
  - rewrite IH, Z.lxor_assoc. reflexivity.
Qed.

Lemma lxor_cancel_l x y z : Z.lxor x y = Z.lxor x z -> y = z.
Proof.
  intros H. apply (f_equal (Z.lxor x)) in H.
  rewrite <- !Z.lxor_assoc, Z.lxor_nilpotent, !Z.lxor_0_l in H. exact H.
Qed.

Lemma ord_inj c1 c2 : Py.ord c1 = Py.ord c2 -> c1 = c2.
Proof.
  unfold Py.ord. intros H. apply N2Z.inj in H.
  rewrite <- (ascii_N_embedding c1), <- (ascii_N_embedding c2), H. reflexivity.
Qed.

Lemma format_X_byte_inj v w :
  0 <= v < 256 -> 0 <= w < 256 -> Py.format_X 2 v = Py.format_X 2 w -> v = w.
Proof.
  intros Hv Hw E.
  pose proof (hex_round_trip_byte v Hv) as Rv.
  pose proof (hex_round_trip_byte w Hw) as Rw.
  unfold hex_round_trip in Rv, Rw. rewrite E in Rv.
  destruct (Py.format_X 2 w) as [|h [|l [|? ?]]]; try discriminate.
  destruct (hex_value h), (hex_value l); try discriminate.
  apply Z.eqb_eq in Rv, Rw. lia.
Qed.

Lemma calculate_checksum_payload payload :
  Nmea.calculate_checksum (String "$" payload) = Py.format_X 2 (xor_bytes payload).
Proof.
  unfold Nmea.calculate_checksum. cbn [Py.drop].
  rewrite xor_fold_xor_bytes, Z.lxor_0_l. reflexivity.
Qed.

(** The checksum of a sentence changes whenever one character of its
    payload is replaced by another one, so a receiver notices every
    single-character corruption; it does not change when two characters
    trade places. *)
Theorem checksum_detects_substitution_not_order :
  forall (before after : string) (c1 c2 : ascii),
    (c1 <> c2 ->
     Nmea.calculate_checksum (String "$" (before ++ String c1 after))
     <> Nmea.calculate_checksum (String "$" (before ++ String c2 after)))
    /\ Nmea.calculate_checksum (String "$" (before ++ String c1 (String c2 after)))
       = Nmea.calculate_checksum (String "$" (before ++ String c2 (String c1 after))).
Proof.
  intros before after c1 c2. rewrite !calculate_checksum_payload. split.
  - intros Hne E. apply Hne.
    apply format_X_byte_inj in E; try apply xor_bytes_byte.
    rewrite !xor_bytes_app in E. cbn [xor_bytes] in E.
    apply lxor_cancel_l in E.
    rewrite (Z.lxor_comm (Py.ord c1)), (Z.lxor_comm (Py.ord c2)) in E.
    apply lxor_cancel_l in E. apply ord_inj. exact E.
  - f_equal. rewrite !xor_bytes_app. cbn [xor_bytes]. f_equal.
    rewrite <- (Z.lxor_assoc (Py.ord c1)), <- (Z.lxor_assoc (Py.ord c2)),
      (Z.lxor_comm (Py.ord c1) (Py.ord c2)). reflexivity.
Qed.

Lemma checksum_detects_substitution_not_order_witness :
  Nmea.calculate_checksum (String "$" ("GPGGA,1" ++ String "2" ",N"))
  <> Nmea.calculate_checksum (String "$" ("GPGGA,1" ++ String "3" ",N")).
Proof.
  apply (checksum_detects_substitution_not_order "GPGGA,1" ",N" "2" "3").
  discriminate.
Defined.
